(** * Dietmate: the plan generator of [dietmate_gui.py]

    A shallow embedding of the parts of [DietmateApp] that compute:
    [generate_plan] (diet filter, allergy filter, 7 x 4 random selection),
    the ingredient collection of [export_shopping_list] and the calorie
    totals of [show_chart].

    Conventions of the embedding.
    - A Python [str] is a [string]; every [ascii] stands for one code point
      in U+0000..U+00FF, and [lower]/[strip] follow Python on that range.
    - A Python [int] is a [Z].
    - [self.profile] is a dict read only through [.get] and truth value: a
      [gmap string string].
    - A plan is a dict whose iteration order is observed: an insertion-ordered
      association list ([dict]).
    - [random.choice] threads a random source through a state-and-error
      monad; the source is a Section variable with the one property the
      code relies on, that a draw below [n] is below [n].
    - Tk widgets, message boxes and files are effects; message boxes are
      recorded as a list of [dialog] events, the rest is left out. *)

From Stdlib Require Import String Ascii List ZArith NArith Lia DecimalString.
From stdpp Require Import base option list gmap strings sorting.

Local Open Scope string_scope.

(** ** Python string operations *)

Module PyStr.

(** [c.isspace()] on U+0000..U+00FF: TAB..CR, FS..US, SPACE, NEL, NBSP. *)
Definition is_space (c : ascii) : bool :=
  let n := N_of_ascii c in
  ((9 <=? n) && (n <=? 13) || (28 <=? n) && (n <=? 31)
   || (n =? 32) || (n =? 133) || (n =? 160))%N.

(** [c.lower()] on U+0000..U+00FF: A..Z and the accented capitals
    U+00C0..U+00DE except the multiplication sign U+00D7 move up by 32. *)
Definition lower_char (c : ascii) : ascii :=
  let n := N_of_ascii c in
  if ((65 <=? n) && (n <=? 90)
      || (192 <=? n) && (n <=? 222) && negb (n =? 215))%N
  then ascii_of_N (n + 32) else c.

(** [s.lower()] *)
Fixpoint lower (s : string) : string :=
  match s with
  | "" => ""
  | String c s' => String (lower_char c) (lower s')
  end.

(** [s.lstrip()] *)
Fixpoint lstrip (s : string) : string :=
  match s with
  | "" => ""
  | String c s' => if is_space c then lstrip s' else s
  end.

(** [s.rstrip()] *)
Fixpoint rstrip (s : string) : string :=
  match s with
  | "" => ""
  | String c s' =>
      match rstrip s' with
      | "" => if is_space c then "" else String c ""
      | r => String c r
      end
  end.

(** [s.strip()] *)
Definition strip (s : string) : string := lstrip (rstrip s).

(** [s.split(sep)] for a one-character separator: never an empty list. *)
Fixpoint split (sep : ascii) (s : string) : list string :=
  match s with
  | "" => [""]
  | String c s' =>
      if Ascii.eqb c sep then "" :: split sep s'
      else match split sep s' with
           | [] => [String c ""]
           | w :: ws => String c w :: ws
           end
  end.

(** [sep.join(l)] *)
Fixpoint join (sep : string) (l : list string) : string :=
  match l with
  | [] => ""
  | [x] => x
  | x :: l' => x +:+ sep +:+ join sep l'
  end.

(** [a in s]: [a] occurs in [s] as a contiguous substring. *)
Fixpoint contains (a s : string) : bool :=
  String.prefix a s
  || match s with
     | "" => false
     | String _ s' => contains a s'
     end.

(** truth value of a string: [bool(s)] *)
Definition truthy (s : string) : bool :=
  match s with "" => false | _ => true end.

(** [str(n)] for a non-negative integer *)
Definition of_nat (n : nat) : string :=
  NilEmpty.string_of_uint (Nat.to_uint n).

(** Every character of [s] satisfies [p]. *)
Fixpoint all_chars (p : ascii -> bool) (s : string) : bool :=
  match s with
  | "" => true
  | String c s' => p c && all_chars p s'
  end.

(** The mathematical reading of [a in s]. *)
Definition substring_of (a s : string) : Prop :=
  exists p q, s = p +:+ a +:+ q.

End PyStr.

(** ** Data model *)

(** A recipe object of the catalog (an element of [SAMPLE_RECIPES] or of
    the recipes file). *)
Record recipe : Type := Recipe {
  name : string;
  meal : string;
  diet : string;
  cal : Z;
  protein : Z;
  carbs : Z;
  fat : Z;
  ingredients : list string
}.

Global Instance recipe_eq_dec : EqDecision recipe.
Proof. solve_decision. Defined.

(** Insertion-ordered dictionaries with string keys: iteration follows the
    order of first insertion, and assigning to a present key keeps its
    place. *)
Section Dict.
Context {V : Type}.

Definition dict : Type := list (string * V).

Fixpoint dict_get (d : dict) (k : string) : option V :=
  match d with
  | [] => None
  | (k', v) :: d' => if String.eqb k' k then Some v else dict_get d' k
  end.

(** [d[k] = v] *)
Fixpoint dict_set (d : dict) (k : string) (v : V) : dict :=
  match d with
  | [] => [(k, v)]
  | (k', v') :: d' =>
      if String.eqb k' k then (k', v) :: d' else (k', v') :: dict_set d' k v
  end.

Definition dict_keys (d : dict) : list string := map fst d.
Definition dict_values (d : dict) : list V := map snd d.
End Dict.
Global Arguments dict : clear implicits.

(** A plan: day label -> (meal slot -> recipe). *)
Definition plan : Type := dict (dict recipe).

(** The controller's fields that the computations read or write.
    [current_plan] is [None] while the attribute does not exist
    ([hasattr(self, "current_plan")] is false). *)
Record app : Type := App {
  profile : gmap string string;
  recipes : list recipe;
  current_plan : option plan
}.

(** A message box shown to the user.  The title is given without its
    leading pictograph. *)
Inductive dialog : Type :=
| showwarning (title message : string)
| showerror (title message : string).

Definition SAMPLE_RECIPES : list recipe := [
  Recipe "Oatmeal Bowl" "Breakfast" "vegan" 320 8 45 9
         ["Oats"; "Banana"; "Almond milk"];
  Recipe "Grilled Chicken Salad" "Lunch" "omnivore" 420 38 18 20
         ["Chicken"; "Lettuce"; "Olive oil"];
  Recipe "Veggie Stir Fry" "Dinner" "vegetarian" 400 12 55 14
         ["Rice"; "Bell pepper"; "Soy sauce"];
  Recipe "Smoothie" "Snack" "vegan" 210 5 35 6
         ["Banana"; "Spinach"; "Oats"; "Almond milk"];
  Recipe "Paneer Wrap" "Lunch" "vegetarian" 460 25 40 18
         ["Paneer"; "Tortilla"; "Cabbage"];
  Recipe "Egg Scramble" "Breakfast" "omnivore" 280 20 5 18
         ["Eggs"; "Tomato"; "Spinach"];
  Recipe "Tofu Curry" "Dinner" "vegan" 440 22 30 16
         ["Tofu"; "Coconut milk"; "Curry paste"]
]%Z.

(** ** [generate_plan]: the filters (lines 149-154) *)

(** [self.profile.get("diet_type", "omnivore")] *)
Definition profile_diet (p : gmap string string) : string :=
  default "omnivore" (p !! "diet_type").

(** [self.profile.get("allergies", "")] *)
Definition profile_allergies (p : gmap string string) : string :=
  default "" (p !! "allergies").

(** [[a.strip().lower() for a in s.split(",") if a.strip()]] *)
Definition parse_allergies (s : string) : list string :=
  map (fun a => PyStr.lower (PyStr.strip a))
      (List.filter (fun a => PyStr.truthy (PyStr.strip a)) (PyStr.split "," s)).

(** [[r for r in recipes if r["diet"] == diet or diet == "omnivore"]] *)
Definition diet_filter (d : string) (rs : list recipe) : list recipe :=
  List.filter (fun r => String.eqb (diet r) d || String.eqb d "omnivore") rs.

(** [(", ".join(r["ingredients"])).lower()] *)
Definition ingredient_text (r : recipe) : string :=
  PyStr.lower (PyStr.join ", " (ingredients r)).

(** [any(a in (", ".join(r["ingredients"])).lower() for a in allergies)] *)
Definition has_allergen (allergies : list string) (r : recipe) : bool :=
  existsb (fun a => PyStr.contains a (ingredient_text r)) allergies.

(** [[r for r in filtered if not any(...)]] *)
Definition allergy_filter (allergies : list string) (rs : list recipe)
  : list recipe :=
  List.filter (fun r => negb (has_allergen allergies r)) rs.

(** The value of [filtered] when line 156 is reached. *)
Definition filtered_recipes (p : gmap string string) (rs : list recipe)
  : list recipe :=
  let d := profile_diet p in
  let allergies := parse_allergies (profile_allergies p) in
  let filtered := diet_filter d rs in
  match allergies with
  | [] => filtered
  | _ :: _ => allergy_filter allergies filtered
  end.

Definition meals : list string := ["Breakfast"; "Lunch"; "Snack"; "Dinner"].

(** [range(1, 8)] *)
Definition days : list nat := seq 1 7.

(** [f"Day {day}"] *)
Definition day_label (day : nat) : string := "Day " +:+ PyStr.of_nat day.

(** [[r for r in filtered if r["meal"] == meal]] *)
Definition choices_for (filtered : list recipe) (m : string) : list recipe :=
  List.filter (fun r => String.eqb (meal r) m) filtered.

(** The slot takes the [else] branch of line 166. *)
Definition uses_fallback (filtered : list recipe) (m : string) : bool :=
  match choices_for filtered m with [] => true | _ :: _ => false end.

(** The list handed to [random.choice] on line 166. *)
Definition candidates (filtered : list recipe) (m : string) : list recipe :=
  let choices := choices_for filtered m in
  match choices with
  | [] => filtered
  | _ :: _ => choices
  end.

(** [self.current_plan = plan] (the text widget is not modelled). *)
Definition show_plan (self : app) (p : plan) : app :=
  {| profile := profile self; recipes := recipes self;
     current_plan := Some p |}.

Definition missing_info : dialog :=
  showwarning "Missing Info"
              "Please save your profile and load recipes first.".

Definition no_recipes : dialog :=
  showerror "No Recipes"
            "No matching recipes found for your preferences!".

(** Exceptions the modelled statements can raise. *)
Inductive exn : Type :=
| IndexError
| KeyError (k : string).

Inductive result (A : Type) : Type :=
| Ok (a : A)
| Raise (e : exn).
Global Arguments Ok {A} a.
Global Arguments Raise {A} e.

(** ** [generate_plan]: random selection (lines 160-168) *)

Section Generator.
(** The random source: its state and [Random._randbelow]. *)
Variable rng : Type.
Variable randbelow : nat -> rng -> nat * rng.

(** State (the random source) and exceptions. *)
Definition M (A : Type) : Type := rng -> result (A * rng).

Definition ret {A} (a : A) : M A := fun g => Ok (a, g).

Definition bind {A B} (c : M A) (k : A -> M B) : M B :=
  fun g => match c g with
           | Ok (a, g') => k a g'
           | Raise e => Raise e
           end.

Definition raise {A} (e : exn) : M A := fun _ => Raise e.

Notation "'let*' x ':=' c 'in' k" := (bind c (fun x => k))
  (at level 10, x name, c at level 100, k at level 200).

(** [for x in xs: s = body(x, s)] *)
Fixpoint for_each {A S} (xs : list A) (body : A -> S -> M S) (s : S)
  : M S :=
  match xs with
  | [] => ret s
  | x :: xs' => let* s' := body x s in for_each xs' body s'
  end.

(** [random.choice(seq)] *)
Definition choice {A} (l : list A) : M A :=
  match l with
  | [] => raise IndexError
  | _ :: _ =>
      fun g =>
        let '(i, g') := randbelow (length l) g in
        match nth_error l i with
        | Some x => Ok (x, g')
        | None => Raise IndexError
        end
  end.

(** [plan[label][meal] = r]: the inner dict is looked up, then updated
    in place. *)
Definition plan_set (p : plan) (label m : string) (r : recipe) : M plan :=
  match dict_get p label with
  | Some inner => ret (dict_set p label (dict_set inner m r))
  | None => raise (KeyError label)
  end.

(** Lines 165-166, one meal slot of one day. *)
Definition fill_slot (filtered : list recipe) (label : string)
           (m : string) (p : plan) : M plan :=
  let choices := choices_for filtered m in
  let* r := (match choices with
             | _ :: _ => choice choices
             | [] => choice filtered
             end) in
  plan_set p label m r.

(** Lines 163-166, one day. *)
Definition fill_day (filtered : list recipe) (day : nat) (p : plan)
  : M plan :=
  let p := dict_set p (day_label day) [] in
  for_each meals (fill_slot filtered (day_label day)) p.

(** Lines 161-166. *)
Definition build_plan (filtered : list recipe) : M plan :=
  for_each days (fill_day filtered) [].

(** [DietmateApp.generate_plan]: the new controller state and the
    message boxes shown. *)
Definition generate_plan (self : app) : M (app * list dialog) :=
  if bool_decide (profile self = ∅) || bool_decide (recipes self = [])
  then ret (self, [missing_info])
  else
    let filtered := filtered_recipes (profile self) (recipes self) in
    match filtered with
    | [] => ret (self, [no_recipes])
    | _ :: _ =>
        let* p := build_plan filtered in
        ret (show_plan self p, [])
    end.
End Generator.

Global Arguments ret {rng A} a.
Global Arguments bind {rng A B} c k.
Global Arguments raise {rng A} e.
Global Arguments for_each {rng A S} xs body s.

(** ** [export_shopping_list] (lines 188-192) and [show_chart] (210-215) *)

(** The nested loops extending [items]. *)
Definition collect_items (p : plan) : list string :=
  fold_left
    (fun items day =>
       fold_left (fun items m => (items ++ ingredients m)%list)
                 (dict_values day) items)
    (dict_values p) [].

(** [sorted(set(items))]: the set forgets order and repetition, [sorted]
    orders its elements by code points. *)
Definition sorted_set (items : list string) : list string :=
  merge_sort String.le (elements (list_to_set items : gset string)).

Definition shopping_items (p : plan) : list string :=
  sorted_set (collect_items p).

(** [export_shopping_list] up to line 192: the warning when no plan exists,
    else the items. *)
Definition export_shopping_list (self : app) : list string + dialog :=
  match current_plan self with
  | None => inr (showwarning "No Plan" "Please generate a meal plan first!")
  | Some p => inl (shopping_items p)
  end.

(** [sum(m["cal"] for m in meals.values())] *)
Definition day_calories (ms : dict recipe) : Z :=
  fold_left Z.add (map cal (dict_values ms)) 0%Z.

(** The loop of [show_chart]: the lists [days] and [calories]. *)
Definition chart_series (p : plan) : list string * list Z :=
  fold_left
    (fun '(ds, cs) '(day, ms) =>
       ((ds ++ [day])%list, (cs ++ [day_calories ms])%list))
    p ([], []).

(** [show_chart] up to line 215. *)
Definition show_chart (self : app) : (list string * list Z) + dialog :=
  match current_plan self with
  | None => inr (showwarning "No Plan" "Please generate a plan first!")
  | Some p => inl (chart_series p)
  end.

(** ** [save_profile] and [load_sample_recipes] (lines 121-141) *)

(** The contents of the nine form widgets, as [widget.get()] returns them. *)
Module Form.
Record form : Type := Form {
  name : string;
  age : string;
  sex : string;
  weight : string;
  height : string;
  activity : string;
  goal : string;
  diet_type : string;
  allergies : string
}.
End Form.

(** A Python [str] with any code points: the message and file texts that
    hold pictographs.  [txt] embeds a [string]. *)
Definition text : Type := list N.

Definition txt (s : string) : text := map N_of_ascii (list_ascii_of_string s).

(** What a call does besides changing the controller: JSON dumps (the value
    dumped, not its serialisation), text files written and closed with the
    given content, text files opened for writing (created or emptied) and
    then left by an exception, what they hold not being determined, and
    message boxes. *)
Inductive effect : Type :=
| dump_profile (p : gmap string string)
| dump_recipes (rs : list recipe)
| write_text (file : string) (content : text)
| open_text (file : string)
| showinfo (title message : string)
| show (d : dialog).

(** The dict literal of lines 122-132. *)
Definition profile_of_form (f : Form.form) : gmap string string :=
  list_to_map [
    ("name", Form.name f); ("age", Form.age f); ("sex", Form.sex f);
    ("weight", Form.weight f); ("height", Form.height f);
    ("activity", Form.activity f); ("goal", Form.goal f);
    ("diet_type", Form.diet_type f); ("allergies", Form.allergies f)
  ].

(** [DietmateApp.save_profile] *)
Definition save_profile (f : Form.form) (self : app) : app * list effect :=
  let p := profile_of_form f in
  ({| profile := p; recipes := recipes self;
      current_plan := current_plan self |},
   [dump_profile p; showinfo "Saved" "Profile saved successfully!"]).

(** [DietmateApp.load_sample_recipes] *)
Definition load_sample_recipes (self : app) : app * list effect :=
  ({| profile := profile self; recipes := SAMPLE_RECIPES;
      current_plan := current_plan self |},
   [dump_recipes SAMPLE_RECIPES;
    showinfo "Loaded" "Sample recipes loaded successfully!"]).

(** ** [export_shopping_list]: the file (lines 194-203) *)

(** The line feed, U+000A. *)
Definition LF : N := 10%N.

(** The two header lines; the first starts with U+1F6D2. *)
Definition shopping_header : text :=
  ((128722%N :: txt " Dietmate Shopping List") ++ [LF]
   ++ txt "------------------------" ++ [LF])%list.

(** The line written for the item [i]; it starts with the bullet U+2022. *)
Definition bullet_line (i : string) : text :=
  ((8226%N :: txt " ") ++ txt i ++ [LF])%list.

(** Exceptions of the file operations. *)
Inductive io_error : Type :=
| OSError
| UnicodeEncodeError.

(** What the platform answers to the file operations of lines 198-201:
    whether [open(file, "w")] raises, whether the [k]-th [f.write] raises
    (the chunk cannot be encoded in the file's encoding, or cannot be
    stored), and whether closing the file raises. *)
Record file_io : Type := FileIO {
  io_open : string -> option io_error;
  io_write : nat -> text -> option io_error;
  io_close : option io_error
}.

(** The platform on which every file operation succeeds. *)
Definition io_ok : file_io :=
  {| io_open := fun _ => None; io_write := fun _ _ => None;
     io_close := None |}.

(** The [f.write] calls in order, from the [k]-th on, up to the first that
    raises. *)
Fixpoint write_all (io : file_io) (k : nat) (chunks : list text)
  : option io_error :=
  match chunks with
  | [] => None
  | c :: cs =>
      match io_write io k c with
      | Some e => Some e
      | None => write_all io (S k) cs
      end
  end.

(** [DietmateApp.export_shopping_list], [file] being the answer of the save
    dialog (empty when the user cancels): the effects, and the exception
    that leaves the method, if any.  The header is one [f.write], each item
    another.  An exception in the [with] body still closes the file, and an
    exception of the closing replaces it. *)
Definition export_shopping_list_io (io : file_io) (self : app)
           (file : string) : list effect * option io_error :=
  match current_plan self with
  | None =>
      ([show (showwarning "No Plan" "Please generate a meal plan first!")],
       None)
  | Some p =>
      let items := shopping_items p in
      if negb (PyStr.truthy file) then ([], None)
      else
        match io_open io file with
        | Some e => ([], Some e)
        | None =>
            let chunks := shopping_header :: map bullet_line items in
            match write_all io 0 chunks, io_close io with
            | Some e, None => ([open_text file], Some e)
            | _, Some e => ([open_text file], Some e)
            | None, None =>
                ([write_text file (concat chunks);
                  showinfo "Exported"
                           ("Shopping list saved to:" +:+ String "010" file)],
                 None)
            end
        end
  end.

(** The effects of [export_shopping_list] where every file operation
    succeeds. *)
Definition export_shopping_list_file (self : app) (file : string)
  : list effect :=
  fst (export_shopping_list_io io_ok self file).

(** A platform whose text encoding has the code points below 256 only. *)
Definition io_latin1 : file_io :=
  {| io_open := fun _ => None;
     io_write := fun _ chunk =>
                   if forallb (fun c => N.ltb c 256) chunk then None
                   else Some UnicodeEncodeError;
     io_close := None |}.

(** [t.split(sep)] on texts, as [PyStr.split] on strings. *)
Fixpoint text_split (sep : N) (t : text) : list text :=
  match t with
  | [] => [[]]
  | c :: t' =>
      if N.eqb c sep then [] :: text_split sep t'
      else match text_split sep t' with
           | [] => [[c]]
           | w :: ws => (c :: w) :: ws
           end
  end.

(** ** Vocabulary of the statements *)

(** The keys of a generated plan, in order. *)
Definition day_labels : list string := map day_label days.

(** [plan[label][m]], when both keys are present. *)
Definition plan_get (p : plan) (label m : string) : option recipe :=
  match dict_get p label with
  | Some d => dict_get d m
  | None => None
  end.

(** A 7 x 4 grid: the seven day labels in order, each with the four meal
    slots in order. *)
Definition plan_7x4 (p : plan) : Prop :=
  dict_keys p = day_labels /\
  Forall (fun d : dict recipe => dict_keys d = meals) (dict_values p).

(** A 7 x 4 grid all of whose recipes come from [rs]. *)
Definition full_plan (rs : list recipe) (p : plan) : Prop :=
  plan_7x4 p /\
  Forall (fun d : dict recipe => Forall (fun r => In r rs) (dict_values d))
         (dict_values p).

(** All recipes assigned by a plan, slot by slot. *)
Definition plan_recipes (p : plan) : list recipe :=
  concat (map (fun d : dict recipe => dict_values d) (dict_values p)).

(** Every slot of the day [d] holds a recipe of the list that line 166
    draws from for that slot. *)
Definition slots_ok (filtered : list recipe) (d : dict recipe) : Prop :=
  Forall (fun kv : string * recipe => In (snd kv) (candidates filtered (fst kv)))
         d.

(** A 7 x 4 grid every slot of which respects [slots_ok]. *)
Definition slotted_plan (filtered : list recipe) (p : plan) : Prop :=
  dict_keys p = day_labels /\
  Forall (fun d : dict recipe => dict_keys d = meals /\ slots_ok filtered d)
         (dict_values p).

Definition no_comma (s : string) : bool :=
  PyStr.all_chars (fun c => negb (Ascii.eqb c ",")) s.


(** A random source for the examples: a counter, drawn modulo the bound. *)
Definition counter_randbelow (n : nat) (g : nat) : nat * nat :=
  (g mod n, S g).

(** Profiles and controller states of the examples. *)
Definition vegan_profile : gmap string string :=
  {[ "diet_type" := "vegan" ]}.

Definition nut_profile : gmap string string :=
  {[ "allergies" := "nut" ]}.

Definition strict_profile : gmap string string :=
  <[ "allergies" := "tofu,oats,banana,spinach,almond" ]> vegan_profile.

Definition vegan_app : app := App vegan_profile SAMPLE_RECIPES None.

(** A state that already holds a (one-day) plan. *)
Definition strict_app : app :=
  App strict_profile SAMPLE_RECIPES
      (Some [("Day 1", [("Breakfast", Recipe "Toast" "Breakfast" "vegan"
                                             150 4 28 2 ["Bread"])])]).

Definition empty_app : app := App ∅ SAMPLE_RECIPES None.

Definition OatmealBowl : recipe :=
  Recipe "Oatmeal Bowl" "Breakfast" "vegan" 320 8 45 9
         ["Oats"; "Banana"; "Almond milk"].
Definition Smoothie : recipe :=
  Recipe "Smoothie" "Snack" "vegan" 210 5 35 6
         ["Banana"; "Spinach"; "Oats"; "Almond milk"].
Definition TofuCurry : recipe :=
  Recipe "Tofu Curry" "Dinner" "vegan" 440 22 30 16
         ["Tofu"; "Coconut milk"; "Curry paste"].

(** The day of the calorie scenario: 320 + 420 + 210 + 400. *)
Definition scenario_day : dict recipe :=
  [("Breakfast", OatmealBowl);
   ("Lunch", Recipe "Grilled Chicken Salad" "Lunch" "omnivore" 420 38 18 20
                    ["Chicken"; "Lettuce"; "Olive oil"]);
   ("Snack", Smoothie);
   ("Dinner", Recipe "Veggie Stir Fry" "Dinner" "vegetarian" 400 12 55 14
                     ["Rice"; "Bell pepper"; "Soy sauce"])].

Definition scenario_plan : plan :=
  map (fun day => (day_label day, scenario_day)) days.

Definition nut_app : app := App nut_profile SAMPLE_RECIPES None.

Definition omnivore_app : app :=
  App {[ "diet_type" := "omnivore" ]} SAMPLE_RECIPES None.

(** The vegan profile with other fields filled in, a blank allergies
    field, and a plan already stored. *)
Definition other_vegan_app : app :=
  App (<[ "goal" := "Lose Weight" ]>
         (<[ "weight" := "70" ]>
            (<[ "allergies" := " , " ]> vegan_profile)))
      SAMPLE_RECIPES (Some scenario_plan).

(** * Properties *)

(** ** Strings *)

Example lower_ex : PyStr.lower "Coconut Milk" = "coconut milk".
Proof. reflexivity. Qed.
Example strip_ex : PyStr.strip "  a b  " = "a b".
Proof. reflexivity. Qed.
Example split_ex : PyStr.split "," ",a,,b," = [""; "a"; ""; "b"; ""].
Proof. reflexivity. Qed.
Example split_nil_ex : PyStr.split "," "" = [""].
Proof. reflexivity. Qed.
Example join_ex : PyStr.join ", " ["Oats"; "Banana"] = "Oats, Banana".
Proof. reflexivity. Qed.
Example contains_ex : PyStr.contains "nut" "coconut milk" = true.
Proof. reflexivity. Qed.
Example of_nat_ex : PyStr.of_nat 7 = "7".
Proof. reflexivity. Qed.

Module PyStrFacts.
Import PyStr.

Lemma app_nil_l (s : string) : "" +:+ s = s.
Proof. reflexivity. Qed.

Lemma app_cons (c : ascii) (s t : string) :
  String c s +:+ t = String c (s +:+ t).
Proof. reflexivity. Qed.

Lemma prefix_spec (a s : string) :
  String.prefix a s = true <-> exists q, s = a +:+ q.
Proof.
  revert s. induction a as [|c a IH]; intros s.
  - destruct s; simpl; split; eauto.
  - destruct s as [|d s]; simpl.
    + split; [discriminate | intros [q Hq]; discriminate].
    + destruct (ascii_dec c d) as [->|Hne].
      * rewrite IH. split; intros [q Hq]; exists q.
        -- rewrite app_cons. now f_equal.
        -- rewrite app_cons in Hq. now inversion Hq.
      * split; [discriminate|].
        intros [q Hq]. rewrite app_cons in Hq. inversion Hq. congruence.
Qed.

(** [a in s] holds exactly when [s] is [p + a + q] for some [p], [q]. *)
Lemma contains_spec (a s : string) :
  contains a s = true <-> substring_of a s.
Proof.
  unfold substring_of. induction s as [|c s IH].
  - cbn [contains]. rewrite orb_false_r, prefix_spec. split.
    + intros [q Hq]. exists "", q. exact Hq.
    + intros ([|d p] & q & Hq).
      * exists q. exact Hq.
      * rewrite app_cons in Hq. discriminate.
  - cbn [contains]. rewrite orb_true_iff, prefix_spec, IH. split.
    + intros [[q Hq] | (p & q & Hq)].
      * exists "", q. exact Hq.
      * exists (String c p), q. rewrite app_cons. now f_equal.
    + intros ([|d p] & q & Hq).
      * left. exists q. exact Hq.
      * right. rewrite app_cons in Hq. inversion Hq. subst. eauto.
Qed.

Lemma contains_false (a s : string) :
  contains a s = false <-> ~ substring_of a s.
Proof.
  rewrite <- contains_spec. destruct (contains a s); split; congruence.
Qed.

Lemma split_not_nil (sep : ascii) (s : string) : split sep s <> [].
Proof.
  induction s as [|c s IH]; simpl; [discriminate|].
  destruct (Ascii.eqb c sep); [discriminate|].
  destruct (split sep s); discriminate.
Qed.


(** A piece holds characters of the string, none of them the separator. *)
Lemma split_all_chars (p : ascii -> bool) (sep : ascii) (s : string) :
  all_chars p s = true ->
  Forall (fun w => all_chars (fun c => p c && negb (Ascii.eqb c sep)) w = true)
         (split sep s).
Proof.
  induction s as [|c s IH]; intros Hall.
  - repeat constructor.
  - cbn [all_chars] in Hall. apply andb_true_iff in Hall as [Hc Hs].
    specialize (IH Hs). cbn [split].
    destruct (Ascii.eqb c sep) eqn:Hsep.
    + constructor; [reflexivity | exact IH].
    + destruct (split sep s) as [|w ws].
      * constructor; [|constructor]. cbn. now rewrite Hc, Hsep.
      * inversion IH; subst. constructor; [|assumption].
        cbn [all_chars]. rewrite Hc, Hsep. assumption.
Qed.

Lemma all_chars_true (s : string) : all_chars (fun _ => true) s = true.
Proof. induction s; simpl; auto. Qed.


(** No piece contains the separator. *)
Lemma split_no_sep (sep : ascii) (s : string) :
  Forall (fun w => all_chars (fun c => negb (Ascii.eqb c sep)) w = true)
         (split sep s).
Proof.
  exact (split_all_chars (fun _ => true) sep s (all_chars_true s)).
Qed.



Lemma lower_char_idemp (c : ascii) :
  lower_char (lower_char c) = lower_char c.
Proof. destruct c as [[] [] [] [] [] [] [] []]; reflexivity. Qed.

Lemma lower_idemp (s : string) : lower (lower s) = lower s.
Proof.
  induction s as [|c s IH]; [reflexivity|].
  cbn [lower]. now rewrite lower_char_idemp, IH.
Qed.

Lemma lower_nonempty (s : string) : truthy s = true -> truthy (lower s) = true.
Proof. destruct s; simpl; auto. Qed.

Lemma lower_char_not_comma (c : ascii) :
  Ascii.eqb (lower_char c) "," = Ascii.eqb c ",".
Proof. destruct c as [[] [] [] [] [] [] [] []]; reflexivity. Qed.

Lemma lower_all_no_comma (s : string) :
  all_chars (fun c => negb (Ascii.eqb c ",")) (lower s)
  = all_chars (fun c => negb (Ascii.eqb c ",")) s.
Proof.
  induction s as [|c s IH]; [reflexivity|].
  cbn [lower all_chars]. now rewrite lower_char_not_comma, IH.
Qed.

Lemma lstrip_all_chars (p : ascii -> bool) (s : string) :
  all_chars p s = true -> all_chars p (lstrip s) = true.
Proof.
  induction s as [|c s IH]; [auto|].
  cbn [all_chars lstrip]. rewrite andb_true_iff. intros [Hc Hs].
  destruct (is_space c); [auto|]. cbn [all_chars]. now rewrite Hc, Hs.
Qed.

Lemma rstrip_all_chars (p : ascii -> bool) (s : string) :
  all_chars p s = true -> all_chars p (rstrip s) = true.
Proof.
  induction s as [|c s IH]; [auto|].
  cbn [all_chars rstrip]. rewrite andb_true_iff. intros [Hc Hs].
  specialize (IH Hs). destruct (rstrip s) as [|d r].
  - destruct (is_space c); [reflexivity|]. cbn. now rewrite Hc.
  - cbn [all_chars]. cbn [all_chars] in IH. now rewrite Hc, IH.
Qed.

Lemma strip_all_chars (p : ascii -> bool) (s : string) :
  all_chars p s = true -> all_chars p (strip s) = true.
Proof. intros H. unfold strip. now apply lstrip_all_chars, rstrip_all_chars. Qed.

Lemma is_space_lower_char (c : ascii) :
  is_space (lower_char c) = is_space c.
Proof. destruct c as [[] [] [] [] [] [] [] []]; reflexivity. Qed.

Lemma lstrip_lower (s : string) : lstrip (lower s) = lower (lstrip s).
Proof.
  induction s as [|c s IH]; [reflexivity|].
  cbn [lower lstrip]. rewrite is_space_lower_char.
  destruct (is_space c); [exact IH | reflexivity].
Qed.

Lemma rstrip_lower (s : string) : rstrip (lower s) = lower (rstrip s).
Proof.
  induction s as [|c s IH]; [reflexivity|].
  cbn [lower rstrip]. rewrite IH, is_space_lower_char.
  destruct (rstrip s); cbn [lower]; [destruct (is_space c)|]; reflexivity.
Qed.

Lemma strip_lower (s : string) : strip (lower s) = lower (strip s).
Proof. unfold strip. now rewrite rstrip_lower, lstrip_lower. Qed.

Lemma lstrip_idemp (s : string) : lstrip (lstrip s) = lstrip s.
Proof.
  induction s as [|c s IH]; [reflexivity|].
  cbn [lstrip]. destruct (is_space c) eqn:E; [exact IH|].
  cbn [lstrip]. now rewrite E.
Qed.

Lemma rstrip_idemp (s : string) : rstrip (rstrip s) = rstrip s.
Proof.
  induction s as [|c s IH]; [reflexivity|].
  cbn [rstrip]. destruct (rstrip s) as [|d r] eqn:E.
  - destruct (is_space c) eqn:Ec; [reflexivity|].
    cbn [rstrip]. now rewrite Ec.
  - cbn [rstrip]. cbn [rstrip] in IH. rewrite IH. reflexivity.
Qed.

Lemma lstrip_not_space (c : ascii) (s : string) :
  is_space c = false -> lstrip (String c s) = String c s.
Proof. intros H. cbn [lstrip]. now rewrite H. Qed.

Lemma rstrip_lstrip (s : string) : rstrip (lstrip s) = lstrip (rstrip s).
Proof.
  induction s as [|c s IH]; [reflexivity|].
  destruct (is_space c) eqn:Ec.
  - cbn [lstrip rstrip]. rewrite Ec, IH.
    destruct (rstrip s) as [|d r]; [reflexivity|].
    cbn [lstrip]. now rewrite Ec.
  - rewrite (lstrip_not_space c s Ec). cbn [rstrip].
    destruct (rstrip s) as [|d r]; rewrite ?Ec;
      now rewrite lstrip_not_space.
Qed.

Lemma strip_idemp (s : string) : strip (strip s) = strip s.
Proof.
  unfold strip.
  now rewrite rstrip_lstrip, rstrip_idemp, lstrip_idemp.
Qed.

End PyStrFacts.

(** ** The filters *)

Section Filters.
Import PyStr PyStrFacts.

Lemma has_allergen_spec (toks : list string) (r : recipe) :
  has_allergen toks r = true <->
  exists a, In a toks /\ substring_of a (ingredient_text r).
Proof.
  unfold has_allergen. rewrite existsb_exists.
  split; intros (a & Ha & Hsub); exists a; split; auto;
    now apply contains_spec.
Qed.

Lemma diet_filter_In (d : string) (rs : list recipe) (r : recipe) :
  In r (diet_filter d rs) <-> In r rs /\ (diet r = d \/ d = "omnivore").
Proof.
  unfold diet_filter. rewrite filter_In, orb_true_iff, !String.eqb_eq.
  reflexivity.
Qed.

Lemma allergy_filter_In (toks : list string) (rs : list recipe) (r : recipe) :
  In r (allergy_filter toks rs) <->
  In r rs /\ forall a, In a toks -> ~ substring_of a (ingredient_text r).
Proof.
  unfold allergy_filter. rewrite filter_In, negb_true_iff.
  split; intros [Hin H]; split; auto.
  - intros a Ha Hsub.
    assert (has_allergen toks r = true) by (apply has_allergen_spec; eauto).
    congruence.
  - destruct (has_allergen toks r) eqn:E; [|reflexivity].
    apply has_allergen_spec in E as (a & Ha & Hsub).
    exfalso. eapply H; eauto.
Qed.

Lemma allergy_filter_nil (rs : list recipe) : allergy_filter [] rs = rs.
Proof.
  unfold allergy_filter, has_allergen. simpl.
  induction rs as [|r rs IH]; simpl; [reflexivity|]. now f_equal.
Qed.

(** The filtered set, whether or not the allergy filter runs. *)
Lemma filtered_recipes_eq (p : gmap string string) (rs : list recipe) :
  filtered_recipes p rs
  = allergy_filter (parse_allergies (profile_allergies p))
                   (diet_filter (profile_diet p) rs).
Proof.
  unfold filtered_recipes.
  destruct (parse_allergies (profile_allergies p));
    [now rewrite allergy_filter_nil | reflexivity].
Qed.

Lemma filtered_recipes_In (p : gmap string string) (rs : list recipe)
      (r : recipe) :
  In r (filtered_recipes p rs) <->
  In r rs
  /\ (diet r = profile_diet p \/ profile_diet p = "omnivore")
  /\ forall a, In a (parse_allergies (profile_allergies p)) ->
               ~ substring_of a (ingredient_text r).
Proof.
  rewrite filtered_recipes_eq, allergy_filter_In, diet_filter_In. tauto.
Qed.

Lemma filter_all {A} (f : A -> bool) (l : list A) :
  (forall x, In x l -> f x = true) -> List.filter f l = l.
Proof.
  induction l as [|x l IH]; intros H; simpl; [reflexivity|].
  rewrite (H x (or_introl eq_refl)). f_equal. apply IH.
  intros y Hy. apply H. now right.
Qed.

(** C1.  The diet type [generate_plan] filters with is the profile's
    "diet_type" entry, and "omnivore" when there is none.  The diet filter
    keeps exactly the recipes whose diet tag equals that diet type, or
    every recipe when it is "omnivore"; a profile with diet type
    "omnivore" keeps the whole catalog, one with diet type "vegan" only
    vegan recipes; the candidates that survive all filtering are among
    the diet-filtered ones, and are all of them when there is no allergy
    token. *)
Theorem diet_filter_correct (p : gmap string string) (rs : list recipe) :
  let d := profile_diet p in
  (forall dt, p !! "diet_type" = Some dt -> d = dt)
  /\ (p !! "diet_type" = None -> d = "omnivore")
  /\ (forall r, In r (diet_filter d rs) <->
                In r rs /\ (diet r = d \/ d = "omnivore"))
  /\ (d = "omnivore" -> diet_filter d rs = rs)
  /\ (d = "vegan" -> Forall (fun r => diet r = "vegan") (diet_filter d rs))
  /\ (forall r, In r (filtered_recipes p rs) -> In r (diet_filter d rs))
  /\ (forall dt, p !! "diet_type" = Some dt ->
                 forall r, In r (diet_filter d rs) <->
                           In r rs /\ (diet r = dt \/ dt = "omnivore"))
  /\ (p !! "diet_type" = Some "omnivore" -> diet_filter d rs = rs)
  /\ (p !! "diet_type" = Some "vegan" ->
      Forall (fun r => diet r = "vegan") (diet_filter d rs))
  /\ (parse_allergies (profile_allergies p) = [] ->
      filtered_recipes p rs = diet_filter d rs).
Proof.
  intros d.
  assert (Hsome : forall dt, p !! "diet_type" = Some dt -> d = dt).
  { intros dt H. unfold d, profile_diet. now rewrite H. }
  assert (Homni : d = "omnivore" -> diet_filter d rs = rs).
  { intros Hd. unfold diet_filter. apply filter_all. intros r _.
    rewrite Hd. apply orb_true_r. }
  assert (Hvegan : d = "vegan" ->
                   Forall (fun r => diet r = "vegan") (diet_filter d rs)).
  { intros Hd. apply List.Forall_forall. intros r Hr.
    apply diet_filter_In in Hr as [_ [H | H]]; congruence. }
  split; [exact Hsome|]. split.
  { intros H. unfold d, profile_diet. now rewrite H. }
  split; [intros r; apply diet_filter_In|].
  split; [exact Homni|]. split; [exact Hvegan|]. split.
  { intros r Hr. apply filtered_recipes_In in Hr as (H1 & H2 & _).
    apply diet_filter_In. auto. }
  split.
  { intros dt H r. rewrite <- (Hsome dt H). apply diet_filter_In. }
  split; [intros H; apply Homni, Hsome, H|].
  split; [intros H; apply Hvegan, Hsome, H|].
  intros H. unfold filtered_recipes. now rewrite H.
Qed.

(** C2.  With a non-empty allergy token list, no recipe survives the
    filtering of [generate_plan] whose ingredients, joined with ", " and
    lower-cased, contain a token as a substring. *)
Theorem allergy_filter_correct (p : gmap string string) (rs : list recipe) :
  parse_allergies (profile_allergies p) <> [] ->
  forall r a,
    In r (filtered_recipes p rs) ->
    In a (parse_allergies (profile_allergies p)) ->
    ~ substring_of a (lower (join ", " (ingredients r))).
Proof.
  intros _ r a Hr Ha.
  apply filtered_recipes_In in Hr as (_ & _ & H). now apply H.
Qed.

Lemma allergy_filter_correct_witness :
  parse_allergies (profile_allergies nut_profile) <> []
  /\ forall r a,
      In r (filtered_recipes nut_profile SAMPLE_RECIPES) ->
      In a (parse_allergies (profile_allergies nut_profile)) ->
      ~ substring_of a (lower (join ", " (ingredients r))).
Proof.
  split.
  - vm_compute. discriminate.
  - apply (allergy_filter_correct nut_profile SAMPLE_RECIPES).
    vm_compute. discriminate.
Defined.

(** The token "nut" rejects the recipe with "Coconut milk"; the other
    six sample recipes stay. *)
Example nut_rejects_coconut :
  map name (filtered_recipes nut_profile SAMPLE_RECIPES)
  = ["Oatmeal Bowl"; "Grilled Chicken Salad"; "Veggie Stir Fry";
     "Smoothie"; "Paneer Wrap"; "Egg Scramble"].
Proof. vm_compute. reflexivity. Qed.

(** Spec scenario: omnivore with allergy "banana". *)
Example banana_scenario :
  map name (filtered_recipes
              (<[ "allergies" := "banana" ]> {[ "diet_type" := "omnivore" ]})
              SAMPLE_RECIPES)
  = ["Grilled Chicken Salad"; "Veggie Stir Fry"; "Paneer Wrap";
     "Egg Scramble"; "Tofu Curry"].
Proof. vm_compute. reflexivity. Qed.

End Filters.

(** ** Parsing of the allergies field *)

Section Parsing.
Import PyStr PyStrFacts.

Lemma truthy_lower (s : string) : truthy (lower s) = truthy s.
Proof. destruct s; reflexivity. Qed.

Lemma truthy_true (s : string) : truthy s = true <-> s <> "".
Proof. destruct s; simpl; split; congruence. Qed.

Lemma filter_map_swap {A B} (f : A -> B) (q : B -> bool) (l : list A) :
  map f (List.filter (fun a => q (f a)) l) = List.filter q (map f l).
Proof.
  induction l as [|x l IH]; simpl; [reflexivity|].
  destruct (q (f x)); simpl; now rewrite IH.
Qed.

(** Tokens are the stripped, lower-cased pieces that are not empty. *)
Lemma parse_allergies_eq (s : string) :
  parse_allergies s
  = List.filter truthy (map (fun a => lower (strip a)) (split "," s)).
Proof.
  unfold parse_allergies. rewrite <- filter_map_swap.
  f_equal. induction (split "," s) as [|w ws IH]; simpl; [reflexivity|].
  rewrite truthy_lower. destruct (truthy (strip w)); now rewrite IH.
Qed.

Lemma parse_allergies_token (s t : string) :
  In t (parse_allergies s) ->
  t <> "" /\ strip t = t /\ lower t = t /\ no_comma t = true.
Proof.
  rewrite parse_allergies_eq, filter_In, in_map_iff.
  intros [(w & <- & Hw) Ht]. repeat split.
  - now apply truthy_true.
  - now rewrite strip_lower, strip_idemp.
  - apply lower_idemp.
  - unfold no_comma. rewrite lower_all_no_comma. apply strip_all_chars.
    pose proof (split_no_sep "," s) as H.
    rewrite List.Forall_forall in H. now apply H.
Qed.



Example parse_allergies_ex :
  parse_allergies " Nut , ,,  Fish " = ["nut"; "fish"].
Proof. reflexivity. Qed.

Example parse_allergies_blank_ex : parse_allergies " , ,," = [].
Proof. reflexivity. Qed.

End Parsing.

(** ** Insertion-ordered dictionaries *)

Section DictFacts.
Context {V : Type}.
Implicit Types (d : dict V) (k : string) (v : V).

Lemma dict_set_fresh d k v :
  ~ In k (dict_keys d) -> dict_set d k v = (d ++ [(k, v)])%list.
Proof.
  induction d as [|[k' v'] d IH]; intros Hk; simpl; [reflexivity|].
  destruct (String.eqb_spec k' k) as [->|Hne].
  - exfalso. apply Hk. now left.
  - f_equal. apply IH. intros H. apply Hk. now right.
Qed.

Lemma dict_get_app_last d k v :
  ~ In k (dict_keys d) -> dict_get (d ++ [(k, v)])%list k = Some v.
Proof.
  induction d as [|[k' v'] d IH]; intros Hk; simpl.
  - now rewrite String.eqb_refl.
  - destruct (String.eqb_spec k' k) as [->|Hne].
    + exfalso. apply Hk. now left.
    + apply IH. intros H. apply Hk. now right.
Qed.

Lemma dict_set_app_last d k v v' :
  ~ In k (dict_keys d) ->
  dict_set (d ++ [(k, v)])%list k v' = (d ++ [(k, v')])%list.
Proof.
  induction d as [|[k' w] d IH]; intros Hk; simpl.
  - now rewrite String.eqb_refl.
  - destruct (String.eqb_spec k' k) as [->|Hne].
    + exfalso. apply Hk. now left.
    + f_equal. apply IH. intros H. apply Hk. now right.
Qed.

Lemma dict_get_In d k :
  In k (dict_keys d) -> exists v, dict_get d k = Some v /\ In (k, v) d.
Proof.
  induction d as [|[k' v'] d IH]; simpl; [tauto|].
  intros Hk. destruct (String.eqb_spec k' k) as [->|Hne].
  - exists v'. split; [reflexivity | now left].
  - destruct Hk as [Hk|Hk]; [congruence|].
    destruct (IH Hk) as (v & Hget & Hin). exists v. split; [exact Hget|].
    now right.
Qed.

Lemma dict_keys_app d d' :
  dict_keys (d ++ d')%list = (dict_keys d ++ dict_keys d')%list.
Proof. apply map_app. Qed.

Lemma dict_values_app d d' :
  dict_values (d ++ d')%list = (dict_values d ++ dict_values d')%list.
Proof. apply map_app. Qed.

Lemma dict_items_values d (v : V) :
  In v (dict_values d) <-> exists k, In (k, v) d.
Proof.
  unfold dict_values. rewrite in_map_iff. split.
  - intros ([k v'] & <- & Hin). now exists k.
  - intros (k & Hin). now exists (k, v).
Qed.
End DictFacts.

(** ** Random selection *)

Lemma counter_randbelow_lt (n g : nat) :
  0 < n -> fst (counter_randbelow n g) < n.
Proof. intros Hn. simpl. apply Nat.mod_upper_bound. lia. Qed.

Lemma candidates_incl (filtered : list recipe) (m : string) (r : recipe) :
  In r (candidates filtered m) -> In r filtered.
Proof.
  unfold candidates. destruct (choices_for filtered m) eqn:E; [auto|].
  rewrite <- E. unfold choices_for. rewrite filter_In. tauto.
Qed.

Lemma candidates_not_nil (filtered : list recipe) (m : string) :
  filtered <> [] -> candidates filtered m <> [].
Proof.
  intros H. unfold candidates.
  destruct (choices_for filtered m); [exact H | discriminate].
Qed.

Lemma day_labels_NoDup : NoDup day_labels.
Proof. apply (bool_decide_unpack _). vm_compute. exact I. Qed.

Lemma meals_NoDup : NoDup meals.
Proof. apply (bool_decide_unpack _). vm_compute. exact I. Qed.

Section GeneratorFacts.
Variable rng : Type.
Variable randbelow : nat -> rng -> nat * rng.

(** The one property of the random source the code relies on. *)
Hypothesis randbelow_lt : forall n g, 0 < n -> fst (randbelow n g) < n.

Variable filtered : list recipe.
Hypothesis filtered_not_nil : filtered <> [].

(** [random.choice] of a non-empty list returns one of its elements. *)
Lemma choice_ok {A} (l : list A) (g : rng) :
  l <> [] ->
  exists x g', choice rng randbelow l g = Ok (x, g') /\ In x l.
Proof.
  intros Hl. destruct l as [|a l]; [contradiction|].
  unfold choice. pose proof (randbelow_lt (length (a :: l)) g) as Hlt.
  destruct (randbelow (length (a :: l)) g) as [i g'].
  simpl fst in Hlt. specialize (Hlt ltac:(simpl; lia)).
  destruct (nth_error (a :: l) i) as [x|] eqn:E.
  - exists x, g'. split; [reflexivity|]. eapply nth_error_In; eauto.
  - apply nth_error_None in E. lia.
Qed.

(** Line 166 draws from [candidates]. *)
Lemma fill_slot_eq (label m : string) (p : plan) :
  fill_slot rng randbelow filtered label m p
  = bind (choice rng randbelow (candidates filtered m))
         (fun r => plan_set rng p label m r).
Proof.
  unfold fill_slot, candidates.
  destruct (choices_for filtered m); reflexivity.
Qed.

Lemma fill_slot_ok (p : plan) (label m : string) (inner : dict recipe)
      (g : rng) :
  ~ In label (dict_keys p) ->
  ~ In m (dict_keys inner) ->
  exists r g',
    fill_slot rng randbelow filtered label m (p ++ [(label, inner)])%list g
    = Ok ((p ++ [(label, (inner ++ [(m, r)])%list)])%list, g')
    /\ In r (candidates filtered m).
Proof.
  intros Hp Hm. rewrite fill_slot_eq. unfold bind.
  destruct (choice_ok (candidates filtered m) g
              (candidates_not_nil _ _ filtered_not_nil))
    as (r & g' & -> & Hr).
  exists r, g'. split; [|exact Hr].
  unfold plan_set. rewrite dict_get_app_last by exact Hp.
  unfold ret. now rewrite dict_set_app_last, dict_set_fresh.
Qed.

Lemma fill_meals_ok (p : plan) (label : string) (ms : list string) :
  ~ In label (dict_keys p) ->
  NoDup ms ->
  forall (inner : dict recipe) (g : rng),
    (forall m, In m ms -> ~ In m (dict_keys inner)) ->
    exists slots g',
      for_each ms (fill_slot rng randbelow filtered label)
               (p ++ [(label, inner)])%list g
      = Ok ((p ++ [(label, (inner ++ slots)%list)])%list, g')
      /\ dict_keys slots = ms
      /\ slots_ok filtered slots.
Proof.
  intros Hp Hnd. induction Hnd as [|m ms Hm Hnd IH]; intros inner g Hfresh.
  - exists [], g. rewrite app_nil_r. repeat split. constructor.
  - destruct (fill_slot_ok p label m inner g Hp) as (r & g1 & E & Hr).
    { apply Hfresh. now left. }
    destruct (IH (inner ++ [(m, r)])%list g1) as (slots & g2 & E2 & Hk & Hs).
    { intros m' Hm' Hin. rewrite dict_keys_app in Hin.
      apply in_app_or in Hin as [Hin|Hin].
      - eapply Hfresh; [right|]; eauto.
      - simpl in Hin. destruct Hin as [<-|[]].
        now apply Hm, list_elem_of_In. }
    exists ((m, r) :: slots), g2. split; [|split].
    + cbn [for_each]. unfold bind at 1. rewrite E. cbv beta iota.
      etransitivity; [exact E2|]. now rewrite <- app_assoc.
    + simpl. now f_equal.
    + constructor; assumption.
Qed.

Lemma fill_day_ok (p : plan) (day : nat) (g : rng) :
  ~ In (day_label day) (dict_keys p) ->
  exists d g',
    fill_day rng randbelow filtered day p g
    = Ok ((p ++ [(day_label day, d)])%list, g')
    /\ dict_keys d = meals
    /\ slots_ok filtered d.
Proof.
  intros Hp. unfold fill_day. rewrite dict_set_fresh by exact Hp.
  destruct (fill_meals_ok p (day_label day) meals Hp meals_NoDup [] g)
    as (d & g' & E & Hk & Hs); [intros m _ []|].
  exists d, g'. auto.
Qed.

Lemma fill_days_ok (ds : list nat) :
  NoDup (map day_label ds) ->
  forall (p : plan) (g : rng),
    (forall d, In d ds -> ~ In (day_label d) (dict_keys p)) ->
    exists q g',
      for_each ds (fill_day rng randbelow filtered) p g
      = Ok ((p ++ q)%list, g')
      /\ dict_keys q = map day_label ds
      /\ Forall (fun d : dict recipe =>
                   dict_keys d = meals /\ slots_ok filtered d)
                (dict_values q).
Proof.
  induction ds as [|day ds IH]; intros Hnd p g Hfresh.
  - exists [], g. rewrite app_nil_r. repeat split. constructor.
  - cbn [map] in Hnd. apply NoDup_cons in Hnd as [Hday Hnd].
    destruct (fill_day_ok p day g) as (d & g1 & E & Hk & Hs).
    { apply Hfresh. now left. }
    destruct (IH Hnd (p ++ [(day_label day, d)])%list g1)
      as (q & g2 & E2 & Hkq & Hq).
    { intros d' Hd' Hin. rewrite dict_keys_app in Hin.
      apply in_app_or in Hin as [Hin|Hin].
      - eapply Hfresh; [right|]; eauto.
      - simpl in Hin. destruct Hin as [Heq|[]].
        apply Hday, list_elem_of_In. rewrite Heq. now apply in_map. }
    exists ((day_label day, d) :: q), g2. split; [|split].
    + cbn [for_each]. unfold bind at 1. rewrite E. cbv beta iota.
      rewrite E2. now rewrite <- app_assoc.
    + simpl. now f_equal.
    + constructor; auto.
Qed.

(** Lines 161-166 return a 7 x 4 grid that respects the slots. *)
Lemma build_plan_ok (g : rng) :
  exists p g',
    build_plan rng randbelow filtered g = Ok (p, g')
    /\ slotted_plan filtered p.
Proof.
  destruct (fill_days_ok days day_labels_NoDup [] g) as (q & g' & E & Hk & Hq).
  { intros d _ []. }
  exists q, g'. split; [exact E|]. split; assumption.
Qed.
End GeneratorFacts.

(** ** [generate_plan] *)

Lemma filtered_recipes_nil (p : gmap string string) :
  filtered_recipes p [] = [].
Proof.
  unfold filtered_recipes. now destruct (parse_allergies (profile_allergies p)).
Qed.

Lemma slotted_plan_full (filtered : list recipe) (p : plan) :
  slotted_plan filtered p -> full_plan filtered p.
Proof.
  intros [Hk Hd]. split; [split; [exact Hk|]|].
  - eapply List.Forall_impl; [|exact Hd]. now intros d [H _].
  - eapply List.Forall_impl; [|exact Hd]. intros d [_ Hs].
    apply List.Forall_forall. intros r Hr.
    apply dict_items_values in Hr as (m & Hin).
    unfold slots_ok in Hs. rewrite List.Forall_forall in Hs.
    apply (candidates_incl filtered m). exact (Hs (m, r) Hin).
Qed.

Lemma slotted_plan_get (filtered : list recipe) (p : plan) (day : nat)
      (m : string) :
  slotted_plan filtered p -> In day days -> In m meals ->
  exists r, plan_get p (day_label day) m = Some r
            /\ In r (candidates filtered m).
Proof.
  intros [Hk Hd] Hday Hm.
  destruct (dict_get_In p (day_label day)) as (d & Hget & Hin).
  { rewrite Hk. now apply in_map. }
  rewrite List.Forall_forall in Hd.
  destruct (Hd d) as [Hkd Hs].
  { apply dict_items_values. eauto. }
  destruct (dict_get_In d m) as (r & Hgetr & Hinr); [now rewrite Hkd|].
  exists r. unfold plan_get. rewrite Hget. split; [exact Hgetr|].
  unfold slots_ok in Hs. rewrite List.Forall_forall in Hs.
  exact (Hs (m, r) Hinr).
Qed.

Section GeneratePlan.
Variable rng : Type.
Variable randbelow : nat -> rng -> nat * rng.

(** The one property of the random source the code relies on. *)
Hypothesis randbelow_lt : forall n g, 0 < n -> fst (randbelow n g) < n.

(** The three outcomes of [generate_plan]. *)
Lemma generate_plan_missing (self : app) (g : rng) :
  profile self = ∅ \/ recipes self = [] ->
  generate_plan rng randbelow self g = Ok ((self, [missing_info]), g).
Proof.
  intros H. unfold generate_plan.
  destruct H as [H|H]; rewrite H.
  - now rewrite bool_decide_eq_true_2.
  - rewrite (bool_decide_eq_true_2 (@nil recipe = [])) by reflexivity.
    now rewrite orb_true_r.
Qed.

Lemma generate_plan_guard (self : app) :
  profile self <> ∅ -> recipes self <> [] ->
  bool_decide (profile self = ∅) || bool_decide (recipes self = []) = false.
Proof. intros H1 H2. now rewrite !bool_decide_eq_false_2. Qed.

Lemma generate_plan_no_match (self : app) (g : rng) :
  profile self <> ∅ -> recipes self <> [] ->
  filtered_recipes (profile self) (recipes self) = [] ->
  generate_plan rng randbelow self g = Ok ((self, [no_recipes]), g).
Proof.
  intros H1 H2 H3. unfold generate_plan.
  now rewrite generate_plan_guard, H3.
Qed.

Lemma generate_plan_run (self : app) (g : rng) :
  profile self <> ∅ ->
  filtered_recipes (profile self) (recipes self) <> [] ->
  exists p g',
    generate_plan rng randbelow self g = Ok ((show_plan self p, []), g')
    /\ slotted_plan (filtered_recipes (profile self) (recipes self)) p.
Proof.
  intros H1 H3.
  assert (H2 : recipes self <> []).
  { intros E. apply H3. rewrite E. apply filtered_recipes_nil. }
  unfold generate_plan. rewrite generate_plan_guard by assumption.
  cbv zeta.
  destruct (build_plan_ok rng randbelow randbelow_lt _ H3 g)
    as (p & g' & E & Hp).
  exists p, g'. split; [|exact Hp].
  destruct (filtered_recipes (profile self) (recipes self)) eqn:Ef;
    [contradiction|].
  unfold bind. now rewrite E.
Qed.

(** C3.  When the profile is set and the filtered set is not empty,
    [generate_plan] stores a plan whose keys are "Day 1" to "Day 7" in
    order, every day holding exactly Breakfast, Lunch, Snack and Dinner,
    each with a recipe of the filtered set.  And whatever the state, the
    call returns, and either leaves the state as it was or stores such a
    full plan: there is no partial plan. *)
Theorem plan_shape (self : app) (g : rng) :
  let filtered := filtered_recipes (profile self) (recipes self) in
  (profile self <> ∅ -> filtered <> [] ->
   exists p g',
     generate_plan rng randbelow self g = Ok ((show_plan self p, []), g')
     /\ dict_keys p
        = ["Day 1"; "Day 2"; "Day 3"; "Day 4"; "Day 5"; "Day 6"; "Day 7"]
     /\ Forall (fun d : dict recipe =>
                  dict_keys d = ["Breakfast"; "Lunch"; "Snack"; "Dinner"]
                  /\ Forall (fun r => In r filtered) (dict_values d))
               (dict_values p))
  /\ exists self' ds g',
      generate_plan rng randbelow self g = Ok ((self', ds), g')
      /\ (self' = self
          \/ exists p, self' = show_plan self p /\ full_plan filtered p).
Proof.
  intros filtered. split.
  - intros H1 H3. destruct (generate_plan_run self g H1 H3)
      as (p & g' & E & Hp).
    exists p, g'. split; [exact E|].
    apply slotted_plan_full in Hp as [[Hk Hd] Hr]. split; [exact Hk|].
    rewrite List.Forall_forall in *. intros d Hin.
    split; [now apply Hd | now apply Hr].
  - destruct (decide (profile self = ∅)) as [H1|H1].
    { exists self, [missing_info], g. split; [|now left].
      apply generate_plan_missing. now left. }
    destruct (decide (recipes self = [])) as [H2|H2].
    { exists self, [missing_info], g. split; [|now left].
      apply generate_plan_missing. now right. }
    destruct (decide (filtered = [])) as [H3|H3].
    { exists self, [no_recipes], g. split; [|now left].
      now apply generate_plan_no_match. }
    destruct (generate_plan_run self g H1 H3) as (p & g' & E & Hp).
    exists (show_plan self p), [], g'. split; [exact E|]. right.
    exists p. split; [reflexivity|]. now apply slotted_plan_full.
Qed.

(** C4.  In the plan that [generate_plan] stores, the recipe of every
    day and slot is a filtered recipe, tagged with that slot whenever some
    filtered recipe is tagged with it; so a recipe sits under a slot other
    than its own tag only when no filtered recipe carries that slot's tag.
    The subset the code draws from, [choices_for], holds exactly the
    filtered recipes tagged with the slot. *)
Theorem cross_slot_fallback (self : app) (g : rng) :
  let filtered := filtered_recipes (profile self) (recipes self) in
  profile self <> ∅ -> filtered <> [] ->
  exists p g',
    generate_plan rng randbelow self g = Ok ((show_plan self p, []), g')
    /\ forall day m,
        1 <= day <= 7 -> In m meals ->
        exists r,
          plan_get p (day_label day) m = Some r
          /\ (choices_for filtered m <> [] -> In r (choices_for filtered m))
          /\ (choices_for filtered m = [] -> In r filtered)
          /\ (meal r <> m -> choices_for filtered m = [])
          /\ (forall x, In x (choices_for filtered m) <->
                        In x filtered /\ meal x = m)
          /\ In r filtered
          /\ ((exists x, In x filtered /\ meal x = m) -> meal r = m)
          /\ (meal r <> m -> forall x, In x filtered -> meal x <> m).
Proof.
  intros filtered H1 H3.
  destruct (generate_plan_run self g H1 H3) as (p & g' & E & Hp).
  exists p, g'. split; [exact E|]. intros day m Hday Hm.
  destruct (slotted_plan_get _ p day m Hp) as (r & Hget & Hr);
    [apply in_seq; lia | exact Hm |].
  exists r. split; [exact Hget|]. fold filtered in Hr.
  assert (Hch : forall x, In x (choices_for filtered m) <->
                          In x filtered /\ meal x = m).
  { intros x. unfold choices_for. rewrite filter_In, String.eqb_eq.
    reflexivity. }
  assert (Hin : In r filtered) by now apply (candidates_incl filtered m).
  assert (Htag : (exists x, In x filtered /\ meal x = m) -> meal r = m).
  { intros (x & Hx & Hxm). unfold candidates in Hr.
    destruct (choices_for filtered m) as [|c cs] eqn:Ec.
    - exfalso. apply (proj2 (Hch x)). now split.
    - now apply Hch in Hr. }
  assert (Hother : meal r <> m -> forall x, In x filtered -> meal x <> m).
  { intros Hne x Hx Hxm. apply Hne, Htag. eauto. }
  split; [|split; [|split]].
  - intros Hne. unfold candidates in Hr.
    destruct (choices_for filtered m); [contradiction | exact Hr].
  - intros _. exact Hin.
  - intros Hne. destruct (choices_for filtered m) as [|c cs] eqn:Ec;
      [reflexivity|].
    exfalso. apply (Hother Hne c); apply (Hch c); now left.
  - split; [exact Hch|]. split; [exact Hin|]. split; [exact Htag|].
    exact Hother.
Qed.

(** C5.  When the profile and the catalog are present and the filters
    leave no recipe, [generate_plan] reports "no matching recipes",
    builds no plan and leaves the controller state, the stored plan
    included, as it was. *)
Theorem no_matching_recipes (self : app) (g : rng) :
  profile self <> ∅ -> recipes self <> [] ->
  filtered_recipes (profile self) (recipes self) = [] ->
  exists self' g',
    generate_plan rng randbelow self g = Ok ((self', [no_recipes]), g')
    /\ self' = self
    /\ current_plan self' = current_plan self.
Proof.
  intros H1 H2 H3. exists self, g.
  split; [now apply generate_plan_no_match | split; reflexivity].
Qed.

(** C6.  When the profile is empty or the catalog is empty,
    [generate_plan] shows the "missing info" warning and leaves the state
    as it was, whatever the filters would give (an empty catalog would
    also filter to nothing, and is still reported as missing); the
    warning differs from the "no recipes" error. *)
Theorem missing_prerequisite (self : app) (g : rng) :
  profile self = ∅ \/ recipes self = [] ->
  generate_plan rng randbelow self g = Ok ((self, [missing_info]), g)
  /\ missing_info <> no_recipes
  /\ (recipes self = [] ->
      filtered_recipes (profile self) (recipes self) = []).
Proof.
  intros H. split; [now apply generate_plan_missing|]. split.
  - discriminate.
  - intros ->. apply filtered_recipes_nil.
Qed.
End GeneratePlan.

(** ** The vegan fixture *)

Lemma profile_diet_not_empty (p : gmap string string) :
  profile_diet p = "vegan" -> p <> ∅.
Proof. intros H ->. discriminate H. Qed.

Section VeganFixture.
Variable rng : Type.
Variable randbelow : nat -> rng -> nat * rng.
Hypothesis randbelow_lt : forall n g, 0 < n -> fst (randbelow n g) < n.

(** C9, as the code has it.  With the seven sample recipes, diet type
    "vegan" and no allergies, the filtered set is Oatmeal Bowl, Smoothie,
    Tofu Curry; only the Lunch slot falls back to the whole filtered set;
    [generate_plan] stores a 7 x 4 plan in which Breakfast is Oatmeal
    Bowl, Snack is Smoothie, Dinner is Tofu Curry and Lunch is any of the
    three. *)
Theorem vegan_fixture (self : app) (g : rng) :
  recipes self = SAMPLE_RECIPES ->
  profile_diet (profile self) = "vegan" ->
  profile_allergies (profile self) = "" ->
  filtered_recipes (profile self) (recipes self)
  = [OatmealBowl; Smoothie; TofuCurry]
  /\ (forall m, In m meals ->
        (uses_fallback [OatmealBowl; Smoothie; TofuCurry] m = true
         <-> m = "Lunch"))
  /\ exists p g',
      generate_plan rng randbelow self g = Ok ((show_plan self p, []), g')
      /\ dict_keys p
         = ["Day 1"; "Day 2"; "Day 3"; "Day 4"; "Day 5"; "Day 6"; "Day 7"]
      /\ Forall (fun d : dict recipe =>
                   exists r,
                     In r [OatmealBowl; Smoothie; TofuCurry]
                     /\ d = [("Breakfast", OatmealBowl); ("Lunch", r);
                             ("Snack", Smoothie); ("Dinner", TofuCurry)])
                (dict_values p).
Proof.
  intros Hrs Hdiet Hall.
  assert (Hf : filtered_recipes (profile self) (recipes self)
               = [OatmealBowl; Smoothie; TofuCurry]).
  { unfold filtered_recipes. rewrite Hrs, Hdiet, Hall. reflexivity. }
  split; [exact Hf|]. split.
  - intros m Hm. simpl in Hm.
    destruct Hm as [<-|[<-|[<-|[<-|[]]]]]; vm_compute; split;
      congruence.
  - destruct (generate_plan_run rng randbelow randbelow_lt self g)
      as (p & g' & E & Hk & Hd).
    { now apply profile_diet_not_empty. }
    { rewrite Hf. discriminate. }
    exists p, g'. split; [exact E|]. split; [exact Hk|].
    rewrite Hf in Hd. eapply List.Forall_impl; [|exact Hd].
    intros d [Hkd Hs].
    destruct d as [|[k1 r1] [|[k2 r2] [|[k3 r3] [|[k4 r4] [|? ?]]]]];
      try discriminate Hkd.
    injection Hkd as -> -> -> ->.
    inversion Hs as [|? ? H1 Hs1]; subst.
    inversion Hs1 as [|? ? H2 Hs2]; subst.
    inversion Hs2 as [|? ? H3 Hs3]; subst.
    inversion Hs3 as [|? ? H4 Hs4]; subst.
    cbn in H1, H2, H3, H4.
    destruct H1 as [<-|[]]. destruct H3 as [<-|[]]. destruct H4 as [<-|[]].
    exists r2. split; [|reflexivity].
    destruct H2 as [<-|[<-|[<-|[]]]]; simpl; auto.
Qed.
End VeganFixture.

(** C9, as stated: the Dinner and Breakfast slots would be filled through
    the fallback.  On the fixture neither is: each has a tagged recipe. *)
Lemma vegan_fixture_fallback_counterexample :
  ~ (uses_fallback (filtered_recipes vegan_profile SAMPLE_RECIPES) "Dinner"
     = true
     \/ uses_fallback (filtered_recipes vegan_profile SAMPLE_RECIPES)
                      "Breakfast" = true).
Proof. vm_compute. intros [H|H]; discriminate H. Qed.

(** ** Instances on the sample data *)

Lemma vegan_profile_not_empty : vegan_profile <> ∅.
Proof. apply profile_diet_not_empty. reflexivity. Qed.

Lemma strict_profile_not_empty : strict_profile <> ∅.
Proof. apply profile_diet_not_empty. reflexivity. Qed.

Lemma plan_shape_witness :
  exists p g',
    generate_plan nat counter_randbelow vegan_app 0
    = Ok ((show_plan vegan_app p, []), g')
    /\ dict_keys p
       = ["Day 1"; "Day 2"; "Day 3"; "Day 4"; "Day 5"; "Day 6"; "Day 7"]
    /\ Forall (fun d : dict recipe =>
                 dict_keys d = ["Breakfast"; "Lunch"; "Snack"; "Dinner"]
                 /\ Forall (fun r => In r (filtered_recipes
                                             (profile vegan_app)
                                             (recipes vegan_app)))
                           (dict_values d))
              (dict_values p).
Proof.
  destruct (plan_shape nat counter_randbelow counter_randbelow_lt vegan_app 0)
    as [H _].
  apply H.
  - exact vegan_profile_not_empty.
  - vm_compute. discriminate.
Defined.

Lemma cross_slot_fallback_witness :
  exists p g',
    generate_plan nat counter_randbelow vegan_app 0
    = Ok ((show_plan vegan_app p, []), g')
    /\ forall day m,
        1 <= day <= 7 -> In m meals ->
        exists r,
          plan_get p (day_label day) m = Some r
          /\ (choices_for (filtered_recipes vegan_profile SAMPLE_RECIPES) m
              <> [] ->
              In r (choices_for (filtered_recipes vegan_profile SAMPLE_RECIPES)
                                m))
          /\ (choices_for (filtered_recipes vegan_profile SAMPLE_RECIPES) m
              = [] ->
              In r (filtered_recipes vegan_profile SAMPLE_RECIPES))
          /\ (meal r <> m ->
              choices_for (filtered_recipes vegan_profile SAMPLE_RECIPES) m
              = [])
          /\ (forall x,
                 In x (choices_for
                         (filtered_recipes vegan_profile SAMPLE_RECIPES) m)
                 <-> In x (filtered_recipes vegan_profile SAMPLE_RECIPES)
                     /\ meal x = m)
          /\ In r (filtered_recipes vegan_profile SAMPLE_RECIPES)
          /\ ((exists x, In x (filtered_recipes vegan_profile SAMPLE_RECIPES)
                         /\ meal x = m) -> meal r = m)
          /\ (meal r <> m ->
              forall x, In x (filtered_recipes vegan_profile SAMPLE_RECIPES) ->
                        meal x <> m).
Proof.
  apply (cross_slot_fallback nat counter_randbelow counter_randbelow_lt
                             vegan_app 0).
  - exact vegan_profile_not_empty.
  - vm_compute. discriminate.
Defined.

Lemma no_matching_recipes_witness :
  exists self' g',
    generate_plan nat counter_randbelow strict_app 0
    = Ok ((self', [no_recipes]), g')
    /\ self' = strict_app
    /\ current_plan self' = current_plan strict_app.
Proof.
  apply (no_matching_recipes nat counter_randbelow strict_app 0).
  - exact strict_profile_not_empty.
  - vm_compute. discriminate.
  - vm_compute. reflexivity.
Defined.

Lemma missing_prerequisite_witness :
  generate_plan nat counter_randbelow empty_app 0
  = Ok ((empty_app, [missing_info]), 0)
  /\ missing_info <> no_recipes
  /\ (recipes empty_app = [] ->
      filtered_recipes (profile empty_app) (recipes empty_app) = []).
Proof.
  apply (missing_prerequisite nat counter_randbelow empty_app 0).
  left. reflexivity.
Defined.

Lemma vegan_fixture_witness :
  filtered_recipes (profile vegan_app) (recipes vegan_app)
  = [OatmealBowl; Smoothie; TofuCurry]
  /\ (forall m, In m meals ->
        (uses_fallback [OatmealBowl; Smoothie; TofuCurry] m = true
         <-> m = "Lunch"))
  /\ exists p g',
      generate_plan nat counter_randbelow vegan_app 0
      = Ok ((show_plan vegan_app p, []), g')
      /\ dict_keys p
         = ["Day 1"; "Day 2"; "Day 3"; "Day 4"; "Day 5"; "Day 6"; "Day 7"]
      /\ Forall (fun d : dict recipe =>
                   exists r,
                     In r [OatmealBowl; Smoothie; TofuCurry]
                     /\ d = [("Breakfast", OatmealBowl); ("Lunch", r);
                             ("Snack", Smoothie); ("Dinner", TofuCurry)])
                (dict_values p).
Proof.
  apply (vegan_fixture nat counter_randbelow counter_randbelow_lt vegan_app 0);
    reflexivity.
Defined.

(** Spec scenario: vegan with allergies "tofu,oats,banana,spinach,almond"
    leaves no recipe. *)
Example strict_scenario :
  filtered_recipes strict_profile SAMPLE_RECIPES = []
  /\ generate_plan nat counter_randbelow strict_app 0
     = Ok ((strict_app, [no_recipes]), 0).
Proof. split; vm_compute; reflexivity. Qed.

(** A run of the fixture from the counter source started at 0. *)
Example vegan_run_day1 :
  match generate_plan nat counter_randbelow vegan_app 0 with
  | Ok ((self', _), _) =>
      match current_plan self' with
      | Some p => map (fun m => option_map name (plan_get p "Day 1" m)) meals
      | None => []
      end
  | Raise _ => []
  end
  = [Some "Oatmeal Bowl"; Some "Smoothie"; Some "Smoothie"; Some "Tofu Curry"].
Proof. vm_compute. reflexivity. Qed.

(** ** Calorie totals *)

Lemma chart_series_fold (p : plan) (ds : list string) (cs : list Z) :
  fold_left
    (fun '(ds, cs) '(day, ms) =>
       ((ds ++ [day])%list, (cs ++ [day_calories ms])%list))
    p (ds, cs)
  = ((ds ++ dict_keys p)%list, (cs ++ map day_calories (dict_values p))%list).
Proof.
  revert ds cs. induction p as [|[day ms] p IH]; intros ds cs; simpl.
  - now rewrite !app_nil_r.
  - rewrite IH, <- !app_assoc. reflexivity.
Qed.

(** The two lists of [show_chart]: the keys in order, and a total for each. *)
Lemma chart_series_eq (p : plan) :
  chart_series p = (dict_keys p, map day_calories (dict_values p)).
Proof. unfold chart_series. now rewrite chart_series_fold. Qed.

Lemma day_calories_four (kb kl ks kd : string) (b l s d : recipe) :
  day_calories [(kb, b); (kl, l); (ks, s); (kd, d)]
  = (cal b + cal l + cal s + cal d)%Z.
Proof. unfold day_calories. simpl. lia. Qed.

(** C7.  For a 7 x 4 plan, [show_chart] computes the labels "Day 1" to
    "Day 7" in order and, at the same positions, the sum of the calories of
    the day's four meals; meals of 320, 420, 210 and 400 give 1350. *)
Theorem aggregate_calories (p : plan) :
  plan_7x4 p ->
  fst (chart_series p)
  = ["Day 1"; "Day 2"; "Day 3"; "Day 4"; "Day 5"; "Day 6"; "Day 7"]
  /\ length (snd (chart_series p)) = 7
  /\ forall i day ms,
      nth_error p i = Some (day, ms) ->
      exists b l s d,
        ms = [("Breakfast", b); ("Lunch", l); ("Snack", s); ("Dinner", d)]
        /\ nth_error (fst (chart_series p)) i = Some day
        /\ nth_error (snd (chart_series p)) i
           = Some (cal b + cal l + cal s + cal d)%Z
        /\ (cal b = 320%Z -> cal l = 420%Z -> cal s = 210%Z ->
            cal d = 400%Z ->
            nth_error (snd (chart_series p)) i = Some 1350%Z).
Proof.
  intros [Hk Hd]. rewrite chart_series_eq. cbn [fst snd].
  split; [exact Hk|]. split.
  - unfold dict_values. rewrite !length_map.
    apply (f_equal (@length string)) in Hk. unfold dict_keys in Hk.
    now rewrite length_map in Hk.
  - intros i day ms Hi.
    assert (Hms : dict_keys ms = meals).
    { rewrite List.Forall_forall in Hd. apply Hd.
      apply dict_items_values. exists day. eapply nth_error_In; eauto. }
    destruct ms as [|[k1 b] [|[k2 l] [|[k3 s] [|[k4 d] [|? ?]]]]];
      try discriminate Hms.
    injection Hms as -> -> -> ->.
    exists b, l, s, d. split; [reflexivity|].
    assert (Hcal : nth_error (map day_calories (dict_values p)) i
                   = Some (cal b + cal l + cal s + cal d)%Z).
    { unfold dict_values. rewrite !nth_error_map, Hi. simpl.
      now rewrite day_calories_four. }
    split; [|split; [exact Hcal|]].
    + unfold dict_keys. now rewrite nth_error_map, Hi.
    + intros Hb Hl Hs Hdn. rewrite Hcal. f_equal. lia.
Qed.

Lemma scenario_plan_7x4 : plan_7x4 scenario_plan.
Proof. split; [reflexivity | repeat constructor]. Qed.

Lemma aggregate_calories_witness :
  fst (chart_series scenario_plan)
  = ["Day 1"; "Day 2"; "Day 3"; "Day 4"; "Day 5"; "Day 6"; "Day 7"]
  /\ length (snd (chart_series scenario_plan)) = 7
  /\ forall i day ms,
      nth_error scenario_plan i = Some (day, ms) ->
      exists b l s d,
        ms = [("Breakfast", b); ("Lunch", l); ("Snack", s); ("Dinner", d)]
        /\ nth_error (fst (chart_series scenario_plan)) i = Some day
        /\ nth_error (snd (chart_series scenario_plan)) i
           = Some (cal b + cal l + cal s + cal d)%Z
        /\ (cal b = 320%Z -> cal l = 420%Z -> cal s = 210%Z ->
            cal d = 400%Z ->
            nth_error (snd (chart_series scenario_plan)) i = Some 1350%Z).
Proof. apply (aggregate_calories scenario_plan). exact scenario_plan_7x4. Defined.

(** Spec scenario: every day of [scenario_plan] totals 1350. *)
Example aggregate_scenario :
  show_chart (App vegan_profile SAMPLE_RECIPES (Some scenario_plan))
  = inl (["Day 1"; "Day 2"; "Day 3"; "Day 4"; "Day 5"; "Day 6"; "Day 7"],
         [1350; 1350; 1350; 1350; 1350; 1350; 1350]%Z).
Proof. reflexivity. Qed.

(** ** Shopping list *)

Lemma extend_fold (l : list recipe) (acc : list string) :
  fold_left (fun items m => (items ++ ingredients m)%list) l acc
  = (acc ++ concat (map ingredients l))%list.
Proof.
  revert acc. induction l as [|r l IH]; intros acc; simpl.
  - now rewrite app_nil_r.
  - now rewrite IH, <- app_assoc.
Qed.

(** The nested loops of lines 189-191 flatten the ingredient lists of all
    assigned recipes, slot by slot. *)
Lemma collect_items_eq (p : plan) :
  collect_items p = concat (map ingredients (plan_recipes p)).
Proof.
  unfold collect_items, plan_recipes.
  enough (H : forall ds acc,
             fold_left
               (fun items (day : dict recipe) =>
                  fold_left (fun items m => (items ++ ingredients m)%list)
                            (dict_values day) items) ds acc
             = (acc ++ concat (map ingredients
                                   (concat (map (fun d : dict recipe =>
                                                   dict_values d) ds))))%list)
    by apply H.
  induction ds as [|d ds IH]; intros acc; simpl.
  - now rewrite app_nil_r.
  - now rewrite IH, extend_fold, map_app, concat_app, <- app_assoc.
Qed.

Lemma collect_items_In (p : plan) (x : string) :
  In x (collect_items p) <->
  exists r, In r (plan_recipes p) /\ In x (ingredients r).
Proof.
  rewrite collect_items_eq, in_concat. split.
  - intros (l & Hl & Hx). apply in_map_iff in Hl as (r & <- & Hr). eauto.
  - intros (r & Hr & Hx). exists (ingredients r). split; [|exact Hx].
    now apply in_map.
Qed.

Lemma sorted_set_In (items : list string) (x : string) :
  In x (sorted_set items) <-> In x items.
Proof.
  unfold sorted_set. rewrite <- !list_elem_of_In.
  rewrite merge_sort_Permutation, elem_of_elements.
  apply elem_of_list_to_set.
Qed.

Lemma sorted_set_NoDup (items : list string) : List.NoDup (sorted_set items).
Proof.
  apply NoDup_ListNoDup. unfold sorted_set.
  rewrite merge_sort_Permutation. apply NoDup_elements.
Qed.

Lemma sorted_set_sorted (items : list string) :
  StronglySorted String.le (sorted_set items).
Proof. unfold sorted_set. apply StronglySorted_merge_sort; apply _. Qed.

(** There is one duplicate-free sorted list with given elements. *)
Lemma sorted_set_unique (items l : list string) :
  (forall x, In x l <-> In x items) ->
  List.NoDup l -> StronglySorted String.le l ->
  l = sorted_set items.
Proof.
  intros Hin Hnd Hs.
  apply (StronglySorted_unique String.le); [exact Hs|apply sorted_set_sorted|].
  apply NoDup_Permutation.
  - now apply NoDup_ListNoDup.
  - apply NoDup_ListNoDup, sorted_set_NoDup.
  - intros x. rewrite !list_elem_of_In, sorted_set_In. apply Hin.
Qed.

Lemma concat_length_const {A} (n : nat) (ls : list (list A)) :
  Forall (fun l => length l = n) ls -> length (concat ls) = n * length ls.
Proof.
  induction 1 as [|l ls Hl _ IH]; simpl; [lia|].
  rewrite length_app, Hl, IH. lia.
Qed.

Lemma plan_7x4_recipes (p : plan) :
  plan_7x4 p -> length (plan_recipes p) = 28.
Proof.
  intros [Hk Hd]. unfold plan_recipes.
  rewrite (concat_length_const 4).
  - unfold dict_values. rewrite !length_map.
    apply (f_equal (@length string)) in Hk. unfold dict_keys in Hk.
    rewrite length_map in Hk. rewrite Hk. reflexivity.
  - apply List.Forall_forall. intros l Hl.
    apply in_map_iff in Hl as (d & <- & Hin).
    rewrite List.Forall_forall in Hd. specialize (Hd d Hin).
    apply (f_equal (@length string)) in Hd. unfold dict_keys in Hd.
    rewrite length_map in Hd. unfold dict_values. now rewrite length_map.
Qed.

(** C8.  The items of [export_shopping_list] are exactly the ingredients
    of the recipes assigned by the plan (28 of them in a 7 x 4 plan), each
    string once, strings compared as they are, in ascending order; they are
    the only such list, so they depend on nothing but the plan's set of
    ingredients. *)
Theorem shopping_list_correct (p : plan) :
  (forall x, In x (shopping_items p) <->
             exists r, In r (plan_recipes p) /\ In x (ingredients r))
  /\ List.NoDup (shopping_items p)
  /\ StronglySorted String.le (shopping_items p)
  /\ (forall l, (forall x, In x l <-> In x (shopping_items p)) ->
                List.NoDup l -> StronglySorted String.le l ->
                l = shopping_items p)
  /\ (forall q, (forall x, In x (collect_items q) <-> In x (collect_items p)) ->
                shopping_items q = shopping_items p)
  /\ (plan_7x4 p -> length (plan_recipes p) = 28).
Proof.
  unfold shopping_items. split; [|split; [|split; [|split; [|split]]]].
  - intros x. rewrite sorted_set_In. apply collect_items_In.
  - apply sorted_set_NoDup.
  - apply sorted_set_sorted.
  - intros l Hin Hnd Hs. apply sorted_set_unique; [|assumption..].
    intros x. rewrite Hin. apply sorted_set_In.
  - intros q Hq. apply sorted_set_unique.
    + intros x. rewrite sorted_set_In. apply Hq.
    + apply sorted_set_NoDup.
    + apply sorted_set_sorted.
  - apply plan_7x4_recipes.
Qed.

(** Upper and lower case are different strings, and capitals sort first. *)
Example sorted_set_case :
  sorted_set ["oats"; "Oats"; "Banana"; "Oats"] = ["Banana"; "Oats"; "oats"].
Proof. vm_compute. reflexivity. Qed.

Example shopping_scenario :
  export_shopping_list (App vegan_profile SAMPLE_RECIPES (Some scenario_plan))
  = inl ["Almond milk"; "Banana"; "Bell pepper"; "Chicken"; "Lettuce";
         "Oats"; "Olive oil"; "Rice"; "Soy sauce"; "Spinach"].
Proof. vm_compute. reflexivity. Qed.

Example shopping_no_plan :
  export_shopping_list vegan_app
  = inr (showwarning "No Plan" "Please generate a meal plan first!").
Proof. reflexivity. Qed.

(** * Further properties of the code *)

(** ** More on strings *)

Section MoreStrings.
Import PyStr PyStrFacts.

Lemma str_app_assoc (s t u : string) : (s +:+ t) +:+ u = s +:+ (t +:+ u).
Proof.
  induction s as [|c s IH]; [reflexivity|].
  rewrite !app_cons. now f_equal.
Qed.

Lemma str_app_nil_r (s : string) : s +:+ "" = s.
Proof.
  induction s as [|c s IH]; [reflexivity|]. rewrite app_cons. now f_equal.
Qed.

Lemma lower_app (s t : string) : lower (s +:+ t) = lower s +:+ lower t.
Proof.
  induction s as [|c s IH]; [reflexivity|].
  rewrite app_cons. cbn [lower]. rewrite app_cons. now f_equal.
Qed.

Lemma substring_of_refl (s : string) : substring_of s s.
Proof. exists "", "". now rewrite app_nil_l, str_app_nil_r. Qed.

Lemma substring_of_trans (a s t : string) :
  substring_of a s -> substring_of s t -> substring_of a t.
Proof.
  intros (p & q & ->) (p' & q' & ->).
  exists (p' +:+ p), (q +:+ q'). now rewrite !str_app_assoc.
Qed.

Lemma substring_of_app_l (a s t : string) :
  substring_of a s -> substring_of a (s +:+ t).
Proof.
  intros (p & q & ->). exists p, (q +:+ t). now rewrite !str_app_assoc.
Qed.

Lemma substring_of_app_r (a s t : string) :
  substring_of a t -> substring_of a (s +:+ t).
Proof.
  intros (p & q & ->). exists (s +:+ p), q. now rewrite !str_app_assoc.
Qed.

Lemma lower_join (sep : string) (l : list string) :
  lower (join sep l) = join (lower sep) (map lower l).
Proof.
  induction l as [|x [|y l] IH]; [reflexivity..|].
  change (join sep (x :: y :: l)) with (x +:+ sep +:+ join sep (y :: l)).
  rewrite !lower_app, IH. reflexivity.
Qed.

(** An ingredient is part of the text the tokens are matched against. *)
Lemma ingredient_in_text (l : list string) (x : string) :
  In x l -> substring_of (lower x) (lower (join ", " l)).
Proof.
  induction l as [|y [|z l] IH]; intros Hin.
  - destruct Hin.
  - destruct Hin as [->|[]]. apply substring_of_refl.
  - change (join ", " (y :: z :: l)) with (y +:+ ", " +:+ join ", " (z :: l)).
    rewrite !lower_app. destruct Hin as [->|Hin].
    + apply substring_of_app_l, substring_of_refl.
    + now apply substring_of_app_r, substring_of_app_r, IH.
Qed.

Lemma split_lower (s : string) :
  split "," (lower s) = map lower (split "," s).
Proof.
  induction s as [|c s IH]; [reflexivity|].
  cbn [lower split]. rewrite lower_char_not_comma, IH.
  destruct (Ascii.eqb c ","); [reflexivity|].
  pose proof (split_not_nil "," s) as Hnil.
  destruct (split "," s); [contradiction | reflexivity].
Qed.

Lemma split_app (s t : string) :
  split "," (s +:+ "," +:+ t) = (split "," s ++ split "," t)%list.
Proof.
  induction s as [|c s IH]; [reflexivity|].
  rewrite app_cons. cbn [split]. rewrite IH.
  destruct (Ascii.eqb c ","); [reflexivity|].
  pose proof (split_not_nil "," s) as Hnil.
  destruct (split "," s); [contradiction | reflexivity].
Qed.

Lemma split_no_comma (w : string) : no_comma w = true -> split "," w = [w].
Proof.
  unfold no_comma. induction w as [|c w IH]; [reflexivity|].
  cbn [all_chars split]. rewrite andb_true_iff, negb_true_iff.
  intros [-> Hw]. now rewrite (IH Hw).
Qed.

(** Splitting undoes joining, when no piece holds a comma. *)
Lemma split_join (ws : list string) :
  ws <> [] -> Forall (fun w => no_comma w = true) ws ->
  split "," (join "," ws) = ws.
Proof.
  induction ws as [|w [|w' ws] IH]; intros Hne Hall; [contradiction|..].
  - inversion Hall; subst. now apply split_no_comma.
  - inversion Hall as [|? ? Hw Hrest]; subst.
    change (join "," (w :: w' :: ws)) with (w +:+ "," +:+ join "," (w' :: ws)).
    rewrite split_app, (split_no_comma w Hw), IH; [reflexivity| |exact Hrest].
    discriminate.
Qed.
End MoreStrings.

(** ** More on the filters *)

Section MoreFilters.
Import PyStr PyStrFacts.

Lemma filter_sublist {A} (f : A -> bool) (l : list A) :
  sublist (List.filter f l) l.
Proof.
  induction l as [|x l IH]; simpl; [constructor|].
  destruct (f x); now constructor.
Qed.

Lemma filter_twice {A} (f g : A -> bool) (l : list A) :
  List.filter g (List.filter f l) = List.filter (fun x => f x && g x) l.
Proof.
  induction l as [|x l IH]; simpl; [reflexivity|].
  destruct (f x); simpl; [destruct (g x)|]; now rewrite IH.
Qed.

(** The filtered set as one pass over the catalog. *)
Lemma filtered_recipes_filter (p : gmap string string) (rs : list recipe) :
  filtered_recipes p rs
  = List.filter
      (fun r => (String.eqb (diet r) (profile_diet p)
                 || String.eqb (profile_diet p) "omnivore")
                && negb (has_allergen (parse_allergies (profile_allergies p)) r))
      rs.
Proof.
  rewrite filtered_recipes_eq. unfold allergy_filter, diet_filter.
  apply filter_twice.
Qed.

(** X2.  Filtering keeps the catalog's order and repetitions, judges every
    recipe on its own, and changes nothing when applied to its own
    result. *)
Theorem filtered_recipes_sublist (p : gmap string string) (rs : list recipe) :
  sublist (filtered_recipes p rs) rs
  /\ (forall rs', filtered_recipes p (rs ++ rs')
                  = (filtered_recipes p rs ++ filtered_recipes p rs')%list)
  /\ filtered_recipes p (filtered_recipes p rs) = filtered_recipes p rs.
Proof.
  split; [|split].
  - rewrite filtered_recipes_filter. apply filter_sublist.
  - intros rs'. rewrite !filtered_recipes_filter. apply List.filter_app.
  - rewrite !filtered_recipes_filter, filter_twice.
    apply List.filter_ext. intros r. now rewrite andb_diag.
Qed.

Lemma parse_allergies_lower (s : string) :
  parse_allergies (lower s) = parse_allergies s.
Proof.
  rewrite !parse_allergies_eq, split_lower, map_map. f_equal.
  apply map_ext. intros a. now rewrite strip_lower, lower_idemp.
Qed.

(** X3.  Letter case plays no part in the allergy matching: allergy
    strings that agree once lower-cased give the same tokens, and recipes
    whose ingredients agree once lower-cased are matched alike. *)
Theorem allergy_matching_ignores_case :
  (forall s s', lower s = lower s' -> parse_allergies s = parse_allergies s')
  /\ (forall toks r r',
         map lower (ingredients r) = map lower (ingredients r') ->
         has_allergen toks r = has_allergen toks r').
Proof.
  split.
  - intros s s' H.
    now rewrite <- (parse_allergies_lower s), H, parse_allergies_lower.
  - intros toks r r' H. unfold has_allergen, ingredient_text.
    now rewrite !lower_join, H.
Qed.

Lemma parse_allergies_app (s t : string) :
  parse_allergies (s +:+ "," +:+ t)
  = (parse_allergies s ++ parse_allergies t)%list.
Proof.
  rewrite !parse_allergies_eq, split_app, map_app. apply List.filter_app.
Qed.

Lemma allergy_filter_app (toks toks' : list string) (rs : list recipe) :
  allergy_filter (toks ++ toks') rs
  = allergy_filter toks' (allergy_filter toks rs).
Proof.
  unfold allergy_filter. rewrite filter_twice. apply List.filter_ext.
  intros r. unfold has_allergen. now rewrite existsb_app, negb_orb.
Qed.

(** X5.  A comma-separated list of allergens is read back as written:
    the tokens of [",".join(ws)] are the pieces [ws], stripped and
    lower-cased, without the empty ones; the tokens of two lists joined by a
    comma are the tokens of the first followed by those of the second; and
    appending an allergen to the field can only remove recipes. *)
Theorem allergy_list_roundtrip :
  (forall ws, Forall (fun w => no_comma w = true) ws ->
              parse_allergies (join "," ws)
              = List.filter truthy (map (fun w => lower (strip w)) ws))
  /\ (forall s t, parse_allergies (s +:+ "," +:+ t)
                  = (parse_allergies s ++ parse_allergies t)%list)
  /\ (forall p p' rs t,
         profile_diet p' = profile_diet p ->
         profile_allergies p' = profile_allergies p +:+ "," +:+ t ->
         sublist (filtered_recipes p' rs) (filtered_recipes p rs)).
Proof.
  split; [|split].
  - intros ws Hall. rewrite parse_allergies_eq.
    destruct ws as [|w ws]; [reflexivity|].
    rewrite split_join; [reflexivity | discriminate | exact Hall].
  - apply parse_allergies_app.
  - intros p p' rs t Hd Ha.
    rewrite !filtered_recipes_eq, Hd, Ha, parse_allergies_app,
      allergy_filter_app.
    apply filter_sublist.
Qed.
End MoreFilters.

(** ** Tokens and single ingredients *)

Section TokenMatching.
Import PyStr PyStrFacts.

Lemma prefix_app_sep (c0 : ascii) (a u v : string) :
  all_chars (fun c => negb (Ascii.eqb c c0)) a = true ->
  String.prefix a (u +:+ String c0 v) = true ->
  String.prefix a u = true.
Proof.
  rewrite !prefix_spec. revert u.
  induction a as [|x a IH]; intros u Ha [q Hq].
  - exists u. reflexivity.
  - cbn [all_chars] in Ha. apply andb_true_iff in Ha as [Hx Ha].
    apply negb_true_iff, Ascii.eqb_neq in Hx.
    destruct u as [|d u].
    + rewrite app_nil_l, app_cons in Hq. inversion Hq. congruence.
    + rewrite !app_cons in Hq. inversion Hq as [[Hd Hrest]]. subst d.
      destruct (IH u Ha (ex_intro _ q Hrest)) as [q' ->].
      exists q'. now rewrite app_cons.
Qed.

(** A string without the character [c0] that occurs in [u + c0 + v] occurs
    in [u] or in [v]. *)
Lemma substring_app_sep (c0 : ascii) (a u v : string) :
  all_chars (fun c => negb (Ascii.eqb c c0)) a = true ->
  substring_of a (u +:+ String c0 v) ->
  substring_of a u \/ substring_of a v.
Proof.
  intros Ha. rewrite <- !contains_spec.
  induction u as [|d u IH].
  - rewrite app_nil_l. cbn [contains]. rewrite orb_true_iff.
    intros [Hp|Hc]; [|now right].
    destruct a as [|x a]; [now left|].
    cbn [all_chars] in Ha. apply andb_true_iff in Ha as [Hx _].
    apply negb_true_iff, Ascii.eqb_neq in Hx.
    apply prefix_spec in Hp as [q Hq]. rewrite app_cons in Hq.
    inversion Hq. congruence.
  - rewrite app_cons. cbn [contains]. rewrite !orb_true_iff.
    intros [Hp|Hc].
    + left. left. rewrite <- app_cons in Hp.
      now apply (prefix_app_sep c0 a (String d u) v).
    + destruct (IH Hc) as [H|H]; [left; now right | now right].
Qed.

Lemma substring_skip (c sp : ascii) (a v : string) :
  c <> sp -> substring_of (String c a) (String sp v) ->
  substring_of (String c a) v.
Proof.
  intros Hne. rewrite <- !contains_spec. cbn [contains].
  rewrite orb_true_iff. intros [Hp|Hc]; [|exact Hc].
  apply prefix_spec in Hp as [q Hq]. rewrite app_cons in Hq.
  inversion Hq. congruence.
Qed.

Lemma lstrip_head (s t : string) (c : ascii) :
  lstrip s = String c t -> is_space c = false.
Proof.
  induction s as [|d s IH]; [discriminate|].
  cbn [lstrip]. destruct (is_space d) eqn:E; [exact IH|].
  intros H. inversion H. now subst.
Qed.

Lemma substring_of_empty (a : string) : substring_of a "" -> a = "".
Proof.
  intros ([|c p] & q & H).
  - rewrite app_nil_l in H. destruct a; [reflexivity|].
    rewrite app_cons in H. discriminate.
  - rewrite app_cons in H. discriminate.
Qed.

(** A stripped, comma-free, non-empty string that occurs in the joined
    ingredients occurs in one of them. *)
Lemma token_in_ingredient (a : string) (l : list string) :
  a <> "" -> no_comma a = true -> strip a = a ->
  substring_of a (lower (join ", " l)) ->
  exists x, In x l /\ substring_of a (lower x).
Proof.
  intros Hne Hnc Hst. induction l as [|x [|y l] IH]; intros Hsub.
  - apply substring_of_empty in Hsub. contradiction.
  - exists x. split; [now left | exact Hsub].
  - change (join ", " (x :: y :: l))
      with (x +:+ ", " +:+ join ", " (y :: l)) in Hsub.
    rewrite !lower_app in Hsub.
    change (lower ", " +:+ lower (join ", " (y :: l)))
      with (String "," (String " " (lower (join ", " (y :: l))))) in Hsub.
    apply (substring_app_sep "," a) in Hsub; [|exact Hnc].
    destruct Hsub as [H|H].
    + exists x. split; [now left | exact H].
    + destruct a as [|c a]; [contradiction|].
      assert (Hc : is_space c = false).
      { unfold strip in Hst. eapply lstrip_head. exact Hst. }
      apply substring_skip in H; [|intros ->; discriminate Hc].
      destruct (IH H) as (z & Hz & Hsz). exists z. split; [now right|].
      exact Hsz.
Qed.

(** X4.  Although the tokens are searched in the ingredients joined with
    ", ", a token never matches across two ingredients: a recipe is
    rejected exactly when one of its ingredients, lower-cased, contains one
    of the tokens. *)
Theorem token_matches_single_ingredient (s : string) (r : recipe) :
  has_allergen (parse_allergies s) r = true <->
  exists a x, In a (parse_allergies s) /\ In x (ingredients r)
              /\ substring_of a (lower x).
Proof.
  rewrite has_allergen_spec. unfold ingredient_text. split.
  - intros (a & Ha & Hsub).
    destruct (parse_allergies_token s a Ha) as (Hne & Hst & _ & Hnc).
    destruct (token_in_ingredient a (ingredients r) Hne Hnc Hst Hsub)
      as (x & Hx & Hax).
    exists a, x. auto.
  - intros (a & x & Ha & Hx & Hax). exists a. split; [exact Ha|].
    eapply substring_of_trans; [exact Hax|].
    now apply ingredient_in_text.
Qed.

(** A text searched as a whole can match where no ingredient does: the
    string "s, b" occurs in "oats, banana".  It is no token, since tokens
    hold no comma. *)
Example joined_text_match :
  contains "s, b" (lower (join ", " ["Oats"; "Banana"])) = true
  /\ existsb (fun x => contains "s, b" (lower x)) ["Oats"; "Banana"] = false
  /\ parse_allergies "s, b" = ["s"; "b"].
Proof. repeat split. Qed.
End TokenMatching.

(** ** More on [generate_plan] *)

Lemma plan_recipes_In (p : plan) (r : recipe) :
  In r (plan_recipes p) <->
  exists d, In d (dict_values p) /\ In r (dict_values d).
Proof.
  unfold plan_recipes. rewrite in_concat. split.
  - intros (l & Hl & Hr). apply in_map_iff in Hl as (d & <- & Hd). eauto.
  - intros (d & Hd & Hr). exists (dict_values d). split; [|exact Hr].
    now apply in_map.
Qed.

Lemma full_plan_recipes (filtered : list recipe) (p : plan) (r : recipe) :
  full_plan filtered p -> In r (plan_recipes p) -> In r filtered.
Proof.
  intros [_ Hf] Hr. apply plan_recipes_In in Hr as (d & Hd & Hr).
  rewrite List.Forall_forall in Hf. specialize (Hf d Hd).
  rewrite List.Forall_forall in Hf. now apply Hf.
Qed.

Section MoreGenerate.
Variable rng : Type.
Variable randbelow : nat -> rng -> nat * rng.
Hypothesis randbelow_lt : forall n g, 0 < n -> fst (randbelow n g) < n.

(** Past the two guards, [generate_plan] is [build_plan] followed by
    [show_plan]. *)
Lemma generate_plan_build (self : app) (g : rng) :
  profile self <> ∅ ->
  filtered_recipes (profile self) (recipes self) <> [] ->
  generate_plan rng randbelow self g
  = match build_plan rng randbelow
            (filtered_recipes (profile self) (recipes self)) g with
    | Ok (p, g') => Ok ((show_plan self p, []), g')
    | Raise e => Raise e
    end.
Proof.
  intros H1 H3.
  assert (H2 : recipes self <> []).
  { intros E. apply H3. rewrite E. apply filtered_recipes_nil. }
  unfold generate_plan. rewrite generate_plan_guard by assumption.
  cbv zeta.
  destruct (filtered_recipes (profile self) (recipes self)) eqn:Ef;
    [contradiction|].
  unfold bind.
  destruct (build_plan rng randbelow (r :: l) g) as [[p g']|e]; reflexivity.
Qed.

(** X1.  [generate_plan] always returns, never touches the profile or the
    catalog, and shows at most one message, which tells which condition
    failed: the warning exactly when the profile or the catalog is empty,
    the error exactly when both are present and the filters leave nothing,
    and no message exactly when a full plan is stored; with a message, the
    state and the random source are as before. *)
Theorem generate_plan_outcome (self : app) (g : rng) :
  let filtered := filtered_recipes (profile self) (recipes self) in
  exists self' ds g',
    generate_plan rng randbelow self g = Ok ((self', ds), g')
    /\ profile self' = profile self
    /\ recipes self' = recipes self
    /\ (ds = [missing_info] <-> profile self = ∅ \/ recipes self = [])
    /\ (ds = [no_recipes] <->
        profile self <> ∅ /\ recipes self <> [] /\ filtered = [])
    /\ (ds = [] <-> profile self <> ∅ /\ filtered <> [])
    /\ (ds <> [] -> self' = self /\ g' = g)
    /\ (ds = [] ->
        exists p, current_plan self' = Some p /\ full_plan filtered p).
Proof.
  intros filtered.
  destruct (decide (profile self = ∅)) as [H1|H1].
  { exists self, [missing_info], g.
    split; [apply generate_plan_missing; now left|].
    repeat split; try discriminate; try tauto; intuition discriminate. }
  destruct (decide (recipes self = [])) as [H2|H2].
  { exists self, [missing_info], g.
    split; [apply generate_plan_missing; now right|].
    assert (filtered = []).
    { unfold filtered. rewrite H2. apply filtered_recipes_nil. }
    repeat split; try discriminate; try tauto; intuition discriminate. }
  destruct (decide (filtered = [])) as [H3|H3].
  { exists self, [no_recipes], g.
    split; [now apply generate_plan_no_match|].
    repeat split; try discriminate; try tauto; intuition discriminate. }
  destruct (generate_plan_run rng randbelow randbelow_lt self g H1 H3)
    as (p & g' & E & Hp).
  exists (show_plan self p), [], g'. split; [exact E|].
  repeat split; try discriminate; try tauto; try congruence.
  intros _. exists p. split; [reflexivity|]. now apply slotted_plan_full.
Qed.

(** X9.  [generate_plan] reads nothing but the diet type, the allergy
    tokens and the catalog: two states with a saved profile that agree on
    these, whatever their other profile fields and whatever plan they hold,
    get the same message, the same new plan, and leave the random source
    in the same state. *)
Theorem generate_plan_reads (self1 self2 : app) (g : rng) :
  profile self1 <> ∅ -> profile self2 <> ∅ ->
  recipes self1 = recipes self2 ->
  profile_diet (profile self1) = profile_diet (profile self2) ->
  parse_allergies (profile_allergies (profile self1))
  = parse_allergies (profile_allergies (profile self2)) ->
  exists s1 s2 ds g',
    generate_plan rng randbelow self1 g = Ok ((s1, ds), g')
    /\ generate_plan rng randbelow self2 g = Ok ((s2, ds), g')
    /\ (ds <> [] -> s1 = self1 /\ s2 = self2)
    /\ (ds = [] -> exists p, current_plan s1 = Some p
                             /\ current_plan s2 = Some p).
Proof.
  intros H1 H1' Hr Hd Ha.
  assert (Hf : filtered_recipes (profile self1) (recipes self1)
               = filtered_recipes (profile self2) (recipes self2)).
  { unfold filtered_recipes. now rewrite Hr, Hd, Ha. }
  destruct (decide (recipes self1 = [])) as [H2|H2].
  { exists self1, self2, [missing_info], g.
    split; [apply generate_plan_missing; now right|].
    split; [apply generate_plan_missing; right; congruence|].
    split; [auto | discriminate]. }
  destruct (decide (filtered_recipes (profile self1) (recipes self1) = []))
    as [H3|H3].
  { exists self1, self2, [no_recipes], g.
    split; [now apply generate_plan_no_match|].
    split; [apply generate_plan_no_match; congruence|].
    split; [auto | discriminate]. }
  destruct (build_plan_ok rng randbelow randbelow_lt _ H3 g)
    as (p & g' & E & _).
  exists (show_plan self1 p), (show_plan self2 p), [], g'.
  split; [now rewrite generate_plan_build, E|].
  split; [rewrite generate_plan_build, <- Hf, ?E; congruence|].
  split; [congruence|]. intros _. now exists p.
Qed.

(** X6.  The shopping list of a freshly generated plan holds only
    ingredients of recipes that passed the filters, and none of them
    contains an allergy token, whatever its letter case. *)
Theorem shopping_list_of_generated_plan (self : app) (g : rng) :
  profile self <> ∅ ->
  filtered_recipes (profile self) (recipes self) <> [] ->
  exists p g' items,
    generate_plan rng randbelow self g = Ok ((show_plan self p, []), g')
    /\ export_shopping_list (show_plan self p) = inl items
    /\ forall x,
        In x items ->
        (exists r, In r (filtered_recipes (profile self) (recipes self))
                   /\ In x (ingredients r))
        /\ forall a,
            In a (parse_allergies (profile_allergies (profile self))) ->
            ~ PyStr.substring_of a (PyStr.lower x).
Proof.
  intros H1 H3.
  destruct (generate_plan_run rng randbelow randbelow_lt self g H1 H3)
    as (p & g' & E & Hp).
  exists p, g', (shopping_items p). split; [exact E|].
  split; [reflexivity|]. intros x Hx.
  unfold shopping_items in Hx.
  apply sorted_set_In, collect_items_In in Hx as (r & Hr & Hxr).
  apply (full_plan_recipes _ p r (slotted_plan_full _ p Hp)) in Hr.
  split; [eauto|]. intros a Ha Hsub.
  apply filtered_recipes_In in Hr as (_ & _ & Hno).
  apply (Hno a Ha). eapply substring_of_trans; [exact Hsub|].
  now apply ingredient_in_text.
Qed.

Lemma day_calories_bounds (filtered : list recipe) (d : dict recipe)
      (lo hi : Z) :
  (forall r, In r filtered -> (lo <= cal r <= hi)%Z) ->
  dict_keys d = meals ->
  Forall (fun r => In r filtered) (dict_values d) ->
  (4 * lo <= day_calories d <= 4 * hi)%Z.
Proof.
  intros Hb Hk Hf.
  destruct d as [|[k1 b] [|[k2 l] [|[k3 s] [|[k4 x] [|? ?]]]]];
    try discriminate Hk.
  rewrite day_calories_four. cbn in Hf.
  inversion Hf as [|? ? Hb1 Hf1]; subst.
  inversion Hf1 as [|? ? Hb2 Hf2]; subst.
  inversion Hf2 as [|? ? Hb3 Hf3]; subst.
  inversion Hf3 as [|? ? Hb4 _]; subst.
  apply Hb in Hb1, Hb2, Hb3, Hb4. lia.
Qed.

(** X7.  The chart of a freshly generated plan has the seven day labels
    and seven totals; when every filtered recipe has between [lo] and [hi]
    calories, every daily total lies between [4 * lo] and [4 * hi]. *)
Theorem chart_of_generated_plan (self : app) (g : rng) (lo hi : Z) :
  profile self <> ∅ ->
  filtered_recipes (profile self) (recipes self) <> [] ->
  (forall r, In r (filtered_recipes (profile self) (recipes self)) ->
             (lo <= cal r <= hi)%Z) ->
  exists p g' totals,
    generate_plan rng randbelow self g = Ok ((show_plan self p, []), g')
    /\ show_chart (show_plan self p)
       = inl (["Day 1"; "Day 2"; "Day 3"; "Day 4"; "Day 5"; "Day 6"; "Day 7"],
              totals)
    /\ length totals = 7
    /\ Forall (fun t => (4 * lo <= t <= 4 * hi)%Z) totals.
Proof.
  intros H1 H3 Hb.
  destruct (generate_plan_run rng randbelow randbelow_lt self g H1 H3)
    as (p & g' & E & Hp).
  apply slotted_plan_full in Hp as [[Hk Hd] Hf].
  exists p, g', (map day_calories (dict_values p)). split; [exact E|].
  split; [|split].
  - unfold show_chart. cbn [show_plan current_plan].
    now rewrite chart_series_eq, Hk.
  - unfold dict_values. rewrite !length_map.
    apply (f_equal (@length string)) in Hk. unfold dict_keys in Hk.
    now rewrite length_map in Hk.
  - apply List.Forall_forall. intros t Ht.
    apply in_map_iff in Ht as (d & <- & Hin).
    rewrite List.Forall_forall in Hd, Hf.
    eapply day_calories_bounds; eauto.
Qed.
End MoreGenerate.

(** ** Saving the profile, loading the samples *)





Section SavedProfile.
Variable rng : Type.
Variable randbelow : nat -> rng -> nat * rng.

End SavedProfile.

Example blank_form_session :
  let f := Form.Form "Asha" "30" "" "" "" "" "" "" "" in
  let self := fst (load_sample_recipes (fst (save_profile f (App ∅ [] None)))) in
  generate_plan nat counter_randbelow self 0 = Ok ((self, [no_recipes]), 0).
Proof. vm_compute. reflexivity. Qed.

(** ** The shopping list file *)

Lemma text_split_not_nil (sep : N) (t : text) : text_split sep t <> [].
Proof.
  induction t as [|c t IH]; simpl; [discriminate|].
  destruct (N.eqb c sep); [discriminate|].
  destruct (text_split sep t); discriminate.
Qed.

(** A line without line feed, then a line feed: the first piece. *)
Lemma text_split_line (sep : N) (l t : text) :
  Forall (fun c => c <> sep) l ->
  text_split sep (l ++ sep :: t)%list = l :: text_split sep t.
Proof.
  induction 1 as [|c l Hc _ IH]; simpl.
  - now rewrite N.eqb_refl.
  - apply N.eqb_neq in Hc. now rewrite Hc, IH.
Qed.

Lemma txt_app (s t : string) : txt (s +:+ t) = (txt s ++ txt t)%list.
Proof.
  unfold txt. induction s as [|c s IH]; [reflexivity|].
  rewrite PyStrFacts.app_cons. simpl. now f_equal.
Qed.

Lemma txt_no_LF (s : string) :
  PyStr.all_chars (fun c => negb (Ascii.eqb c "010")) s = true ->
  Forall (fun c => c <> LF) (txt s).
Proof.
  unfold txt. induction s as [|c s IH]; simpl; [constructor|].
  rewrite andb_true_iff, negb_true_iff. intros [Hc Hs].
  constructor; [|now apply IH].
  apply Ascii.eqb_neq in Hc. intros E. apply Hc.
  rewrite <- (ascii_N_embedding c), E. reflexivity.
Qed.

Lemma bullet_lines_split (items : list string) :
  Forall (fun i => PyStr.all_chars (fun c => negb (Ascii.eqb c "010")) i = true)
         items ->
  text_split LF (concat (map bullet_line items))
  = (map (fun i => 8226%N :: txt (" " +:+ i)) items ++ [[]])%list.
Proof.
  induction 1 as [|i items Hi _ IH]; [reflexivity|].
  assert (E : bullet_line i = ((8226%N :: txt (" " +:+ i)) ++ [LF])%list).
  { unfold bullet_line. rewrite txt_app, <- !app_comm_cons.
    now rewrite app_assoc. }
  cbn [map concat]. rewrite E, <- app_assoc.
  change ([LF] ++ concat (map bullet_line items))%list
    with (LF :: concat (map bullet_line items)).
  rewrite (text_split_line LF (8226%N :: txt (" " +:+ i))).
  - now rewrite IH.
  - constructor; [discriminate|]. apply txt_no_LF.
    rewrite PyStrFacts.app_cons, PyStrFacts.app_nil_l.
    cbn [PyStr.all_chars]. now rewrite Hi.
Qed.

Lemma shopping_items_no_LF (p : plan) :
  (forall r x, In r (plan_recipes p) -> In x (ingredients r) ->
               PyStr.all_chars (fun c => negb (Ascii.eqb c "010")) x = true) ->
  Forall (fun i => PyStr.all_chars (fun c => negb (Ascii.eqb c "010")) i = true)
         (shopping_items p).
Proof.
  intros Hnl. apply List.Forall_forall. intros x Hx.
  unfold shopping_items in Hx.
  apply sorted_set_In, collect_items_In in Hx as (r & Hr & Hxr). eauto.
Qed.

Lemma shopping_file_lines (items : list string) :
  Forall (fun i => PyStr.all_chars (fun c => negb (Ascii.eqb c "010")) i = true)
         items ->
  text_split LF (concat (shopping_header :: map bullet_line items))
  = ([128722%N :: txt " Dietmate Shopping List";
      txt "------------------------"]
     ++ map (fun i => 8226%N :: txt (" " +:+ i)) items ++ [[]])%list.
Proof.
  intros Hnl. cbn [concat]. unfold shopping_header. rewrite <- !app_assoc.
  change ([LF] ++ ?t)%list with (LF :: t).
  rewrite (text_split_line LF (128722%N :: txt " Dietmate Shopping List"))
    by (apply (bool_decide_unpack _); vm_compute; exact I).
  change ([LF] ++ ?t)%list with (LF :: t).
  rewrite (text_split_line LF (txt "------------------------"))
    by (apply (bool_decide_unpack _); vm_compute; exact I).
  now rewrite bullet_lines_split.
Qed.

(** X10.  Without a plan [export_shopping_list] only warns; when the save
    dialog is cancelled it does nothing.  Otherwise an exception leaves it
    exactly when opening the file, one of the writes or the closing
    raises; then no "Exported" box is shown and no finished file is
    recorded: nothing at all when the opening raised, an opened file of
    undetermined content when the header cannot be written, as on a
    platform whose encoding lacks U+1F6D2.  When no operation raises, one
    file is written and reported, and, no ingredient holding a line feed,
    its lines are the two header lines followed by one bullet line for each
    item of the sorted, duplicate-free list, in order. *)
Theorem export_file_lines (io : file_io) (self : app) :
  (current_plan self = None ->
   forall file,
     export_shopping_list_io io self file
     = ([show (showwarning "No Plan" "Please generate a meal plan first!")],
        None))
  /\ (forall p, current_plan self = Some p ->
                export_shopping_list_io io self "" = ([], None))
  /\ (forall p file,
         current_plan self = Some p -> file <> "" ->
         let chunks := shopping_header :: map bullet_line (shopping_items p) in
         let r := export_shopping_list_io io self file in
         (snd r <> None <->
          io_open io file <> None \/ write_all io 0 chunks <> None
          \/ io_close io <> None)
         /\ (snd r <> None -> fst r = [] \/ fst r = [open_text file])
         /\ (forall e, io_open io file = Some e -> r = ([], Some e))
         /\ (forall e, io_open io file = None ->
                       io_write io 0 shopping_header = Some e ->
                       fst r = [open_text file] /\ snd r <> None)
         /\ (snd r = None ->
             fst r = [write_text file (concat chunks);
                      showinfo "Exported"
                               ("Shopping list saved to:"
                                +:+ String "010" file)]
             /\ ((forall x y, In x (plan_recipes p) -> In y (ingredients x) ->
                              PyStr.all_chars
                                (fun c => negb (Ascii.eqb c "010")) y = true) ->
                 text_split LF (concat chunks)
                 = ([128722%N :: txt " Dietmate Shopping List";
                     txt "------------------------"]
                    ++ map (fun i => 8226%N :: txt (" " +:+ i))
                           (shopping_items p)
                    ++ [[]])%list))).
Proof.
  split; [|split].
  - intros H file. unfold export_shopping_list_io. now rewrite H.
  - intros p H. unfold export_shopping_list_io. now rewrite H.
  - intros p file H Hfile chunks r.
    assert (Er : r = match io_open io file with
                     | Some e => ([], Some e)
                     | None =>
                         match write_all io 0 chunks, io_close io with
                         | Some e, None => ([open_text file], Some e)
                         | _, Some e => ([open_text file], Some e)
                         | None, None =>
                             ([write_text file (concat chunks);
                               showinfo "Exported"
                                        ("Shopping list saved to:"
                                         +:+ String "010" file)], None)
                         end
                     end).
    { unfold r, export_shopping_list_io. rewrite H.
      destruct file as [|c file]; [contradiction | reflexivity]. }
    clearbody r. subst r.
    split; [|split; [|split; [|split]]].
    + destruct (io_open io file); [split; [auto | discriminate]|].
      destruct (write_all io 0 chunks), (io_close io); cbn [snd];
        split; try discriminate; try tauto; intros [?|[?|?]]; congruence.
    + destruct (io_open io file); [now left|].
      destruct (write_all io 0 chunks), (io_close io); cbn [fst snd];
        auto; congruence.
    + intros e He. now rewrite He.
    + intros e Ho Hw. rewrite Ho.
      assert (Hall : write_all io 0 chunks = Some e).
      { unfold chunks. cbn [write_all]. now rewrite Hw. }
      rewrite Hall. destruct (io_close io); split; cbn; congruence.
    + destruct (io_open io file); [discriminate|].
      destruct (write_all io 0 chunks), (io_close io); cbn [fst snd];
        try discriminate.
      intros _. split; [reflexivity|]. intros Hnl.
      apply shopping_file_lines, shopping_items_no_LF. exact Hnl.
Qed.

(** On a platform whose encoding lacks the pictograph of the header, the
    file is opened and the method is left by the exception. *)
Example export_file_latin1 :
  export_shopping_list_io io_latin1
    (App vegan_profile SAMPLE_RECIPES
         (Some [("Day 1", [("Breakfast", OatmealBowl)])]))
    "list.txt"
  = ([open_text "list.txt"], Some UnicodeEncodeError).
Proof. vm_compute. reflexivity. Qed.

Example export_file_ex :
  export_shopping_list_file
    (App vegan_profile SAMPLE_RECIPES
         (Some [("Day 1", [("Breakfast", OatmealBowl)])]))
    "list.txt"
  = [write_text "list.txt"
       (shopping_header
        ++ (8226%N :: txt " Almond milk") ++ [LF]
        ++ (8226%N :: txt " Banana") ++ [LF]
        ++ (8226%N :: txt " Oats") ++ [LF])%list;
     showinfo "Exported" ("Shopping list saved to:" +:+ String "010" "list.txt")].
Proof. vm_compute. reflexivity. Qed.

(** ** Instances of the further properties *)

Lemma generate_plan_outcome_witness :
  exists self' ds g',
    generate_plan nat counter_randbelow vegan_app 0 = Ok ((self', ds), g')
    /\ profile self' = profile vegan_app
    /\ recipes self' = recipes vegan_app
    /\ (ds = [missing_info] <->
        profile vegan_app = ∅ \/ recipes vegan_app = [])
    /\ (ds = [no_recipes] <->
        profile vegan_app <> ∅ /\ recipes vegan_app <> []
        /\ filtered_recipes (profile vegan_app) (recipes vegan_app) = [])
    /\ (ds = [] <->
        profile vegan_app <> ∅
        /\ filtered_recipes (profile vegan_app) (recipes vegan_app) <> [])
    /\ (ds <> [] -> self' = vegan_app /\ g' = 0)
    /\ (ds = [] ->
        exists p, current_plan self' = Some p
                  /\ full_plan (filtered_recipes (profile vegan_app)
                                                 (recipes vegan_app)) p).
Proof.
  exact (generate_plan_outcome nat counter_randbelow counter_randbelow_lt
                               vegan_app 0).
Defined.

Lemma other_vegan_profile_not_empty : profile other_vegan_app <> ∅.
Proof. apply profile_diet_not_empty. reflexivity. Qed.

Lemma generate_plan_reads_witness :
  exists s1 s2 ds g',
    generate_plan nat counter_randbelow vegan_app 0 = Ok ((s1, ds), g')
    /\ generate_plan nat counter_randbelow other_vegan_app 0
       = Ok ((s2, ds), g')
    /\ (ds <> [] -> s1 = vegan_app /\ s2 = other_vegan_app)
    /\ (ds = [] -> exists p, current_plan s1 = Some p
                             /\ current_plan s2 = Some p).
Proof.
  apply (generate_plan_reads nat counter_randbelow counter_randbelow_lt
                             vegan_app other_vegan_app 0).
  - exact vegan_profile_not_empty.
  - exact other_vegan_profile_not_empty.
  - reflexivity.
  - vm_compute. reflexivity.
  - vm_compute. reflexivity.
Defined.

Lemma nut_profile_not_empty : profile nut_app <> ∅.
Proof. intros H. apply (f_equal (fun m => m !! "allergies")) in H.
       vm_compute in H. discriminate H. Qed.

Lemma shopping_list_of_generated_plan_witness :
  exists p g' items,
    generate_plan nat counter_randbelow nut_app 0
    = Ok ((show_plan nut_app p, []), g')
    /\ export_shopping_list (show_plan nut_app p) = inl items
    /\ forall x,
        In x items ->
        (exists r, In r (filtered_recipes (profile nut_app) (recipes nut_app))
                   /\ In x (ingredients r))
        /\ forall a,
            In a (parse_allergies (profile_allergies (profile nut_app))) ->
            ~ PyStr.substring_of a (PyStr.lower x).
Proof.
  apply (shopping_list_of_generated_plan nat counter_randbelow
           counter_randbelow_lt nut_app 0).
  - exact nut_profile_not_empty.
  - vm_compute. discriminate.
Defined.

Lemma chart_of_generated_plan_witness :
  exists p g' totals,
    generate_plan nat counter_randbelow vegan_app 0
    = Ok ((show_plan vegan_app p, []), g')
    /\ show_chart (show_plan vegan_app p)
       = inl (["Day 1"; "Day 2"; "Day 3"; "Day 4"; "Day 5"; "Day 6"; "Day 7"],
              totals)
    /\ length totals = 7
    /\ Forall (fun t => (4 * 210 <= t <= 4 * 440)%Z) totals.
Proof.
  apply (chart_of_generated_plan nat counter_randbelow counter_randbelow_lt
                                 vegan_app 0 210 440).
  - exact vegan_profile_not_empty.
  - vm_compute. discriminate.
  - intros r Hr. vm_compute in Hr.
    destruct Hr as [<-|[<-|[<-|[]]]]; simpl; lia.
Defined.

(** ** Plans and the two views *)

Section PlanAvailable.
Variable rng : Type.
Variable randbelow : nat -> rng -> nat * rng.
Hypothesis randbelow_lt : forall n g, 0 < n -> fst (randbelow n g) < n.


(** X12.  When the filtered set has a recipe for each of the four meal
    slots, the fallback is never taken: every slot of the generated plan
    holds a filtered recipe tagged with that very slot. *)
Theorem plan_respects_tags (self : app) (g : rng) :
  profile self <> ∅ ->
  (forall m, In m meals ->
             exists r, In r (filtered_recipes (profile self) (recipes self))
                       /\ meal r = m) ->
  exists p g',
    generate_plan rng randbelow self g = Ok ((show_plan self p, []), g')
    /\ forall day m,
        1 <= day <= 7 -> In m meals ->
        exists r,
          plan_get p (day_label day) m = Some r
          /\ meal r = m
          /\ In r (filtered_recipes (profile self) (recipes self)).
Proof.
  intros H1 Hcover.
  assert (H3 : filtered_recipes (profile self) (recipes self) <> []).
  { destruct (Hcover "Breakfast") as (r & Hr & _); [now left|].
    intros E. rewrite E in Hr. destruct Hr. }
  destruct (generate_plan_run rng randbelow randbelow_lt self g H1 H3)
    as (p & g' & E & Hp).
  exists p, g'. split; [exact E|]. intros day m Hday Hm.
  destruct (slotted_plan_get _ p day m Hp) as (r & Hget & Hr);
    [apply in_seq; lia | exact Hm |].
  exists r. split; [exact Hget|].
  unfold candidates in Hr.
  destruct (choices_for (filtered_recipes (profile self) (recipes self)) m)
    as [|c cs] eqn:Ec.
  - exfalso. destruct (Hcover m Hm) as (r' & Hr' & Hm').
    assert (Hin : In r' (choices_for
                           (filtered_recipes (profile self) (recipes self)) m)).
    { unfold choices_for. apply filter_In. split; [exact Hr'|].
      now apply String.eqb_eq. }
    rewrite Ec in Hin. destruct Hin.
  - rewrite <- Ec in Hr. unfold choices_for in Hr.
    apply filter_In in Hr as [Hin Hm']. split; [|exact Hin].
    now apply String.eqb_eq.
Qed.
End PlanAvailable.


Lemma plan_respects_tags_witness :
  exists p g',
    generate_plan nat counter_randbelow omnivore_app 0
    = Ok ((show_plan omnivore_app p, []), g')
    /\ forall day m,
        1 <= day <= 7 -> In m meals ->
        exists r,
          plan_get p (day_label day) m = Some r
          /\ meal r = m
          /\ In r (filtered_recipes (profile omnivore_app)
                                    (recipes omnivore_app)).
Proof.
  apply (plan_respects_tags nat counter_randbelow counter_randbelow_lt
                            omnivore_app 0).
  - intros H. apply (f_equal (fun m => m !! "diet_type")) in H.
    vm_compute in H. discriminate H.
  - intros m Hm. simpl in Hm.
    destruct Hm as [<-|[<-|[<-|[<-|[]]]]].
    + exists OatmealBowl. split; [vm_compute; auto | reflexivity].
    + exists (Recipe "Grilled Chicken Salad" "Lunch" "omnivore" 420 38 18 20
                     ["Chicken"; "Lettuce"; "Olive oil"]).
      split; [vm_compute; auto | reflexivity].
    + exists Smoothie. split; [vm_compute; auto 10 | reflexivity].
    + exists TofuCurry. split; [vm_compute; auto 10 | reflexivity].
Defined.
